(** * Issuer API views (apps/issuer/api.py): a shallow embedding

    The views of [apps/issuer/api.py] are thin controllers over the ORM,
    the permission classes, the serializers and the audit logger.  Each
    handler is embedded as a computation in a state-and-exception monad
    over the database tables, the file storage, the audit log and a ghost
    trace of the data accesses a handler performs. *)

From Stdlib Require Import ZArith Ascii String.
From stdpp Require Import base strings gmap list.

Local Open Scope Z_scope.
Local Open Scope string_scope.

(** ** Python values crossing the HTTP boundary *)

(** An [UploadedFile] of django.core.files.uploadedfile. *)
Record UploadedFile := { uf_name : string; uf_content : string }.

(** The values found in [request.data] and given to [Response]:
    [None], strings, numbers, booleans, uploaded files, lists, dicts. *)
#[local] Unset Elimination Schemes.
Inductive PyValue :=
| PNone
| PStr (s : string)
| PNum (z : Z)
| PBool (b : bool)
| PFile (f : UploadedFile)
| PList (l : list PyValue)
| PDict (l : list (string * PyValue)).
#[local] Set Elimination Schemes.

(** [isinstance(v, UploadedFile)] *)
Definition isinstance_UploadedFile (v : PyValue) : bool :=
  match v with PFile _ => true | _ => false end.

(** [v is None] *)
Definition is_None (v : PyValue) : bool :=
  match v with PNone => true | _ => false end.

(** [d.get(k)]: the value under [k], [None] when the key is missing. *)
Definition dict_get (d : gmap string PyValue) (k : string) : PyValue :=
  default PNone (d !! k).

(** ** HTTP *)

Definition HTTP_200_OK : Z := 200.
Definition HTTP_400_BAD_REQUEST : Z := 400.
Definition HTTP_404_NOT_FOUND : Z := 404.

(** rest_framework.response.Response(data=None, status=200) *)
Record Response := { resp_data : PyValue; resp_status : Z }.

Record Request := {
  user : string;
  data : gmap string PyValue;
  query_params : gmap string string
}.

(** ** Models *)

Inductive Model :=
  MIssuer | MBadgeClass | MBadgeInstance | MBadgeObjectiveAward | MPathwayElement.

#[global] Instance Model_eq_dec : EqDecision Model.
Proof. solve_decision. Defined.

Record Issuer := { issuer_id : Z; issuer_slug : string }.

Record BadgeClass := {
  bc_id : Z;
  bc_slug : string;
  bc_issuer_id : Z;
  bc_name : PyValue;
  bc_image : PyValue;
  bc_criteria : PyValue;
  bc_description : PyValue
}.

Record BadgeInstance := {
  bi_id : Z;
  bi_slug : string;
  bi_issuer_id : Z;
  bi_badgeclass_id : Z;
  bi_recipient_identifier : string;
  bi_revoked : bool;
  bi_revocation_reason : PyValue;
  bi_image : option string   (* name of the baked image in the storage *)
}.

(** badgebook.models.BadgeObjectiveAward, as far as the revocation uses it. *)
Record BadgeObjectiveAward := { award_id : Z; award_badge_instance_id : Z }.

(** ** The world a request runs against *)

Record World := {
  db_issuers : list Issuer;
  db_badgeclasses : list BadgeClass;
  db_instances : list BadgeInstance;
  db_awards : list BadgeObjectiveAward;
  storage : gset string;
  installed_apps : list string;
  badgebook_importable : bool
}.

(** Events handed to [badgrlog.BadgrLogger]. *)
Inductive Event :=
| BadgeClassDeletedEvent (old_badgeclass : BadgeClass) (by_user : string)
| BadgeAssertionRevokedEvent (assertion : BadgeInstance) (by_user : string).

(** Ghost trace: what a handler touched, in order. *)
Inductive Access :=
| DbRead (m : Model)
| DbWrite (m : Model)
| StorageDelete (name : string)
| ObjectPermission (m : Model)
| AppRegistry
| ModuleImport.

Record State := {
  world : World;
  audit : list Event;
  trace : list Access
}.

(** ** Exceptions *)

Inductive Exn :=
| DoesNotExist (m : Model)
| MultipleObjectsReturned (m : Model)
| PermissionDenied
| ValidationError (detail : string)
| ImportError
| KeyError (k : string)
| LibraryError (name : string).

Inductive Result (A : Type) :=
| Ok (a : A)
| Raise (e : Exn).
Arguments Ok {A} a.
Arguments Raise {A} e.

#[global] Instance Result_ret : MRet Result := λ A a, Ok a.
#[global] Instance Result_bind : MBind Result := λ A B f r,
  match r with
  | Ok a => f a
  | Raise e => Raise e
  end.

(** The status the framework's exception handler answers with:
    APIException subclasses carry their own, anything else is a 500. *)
Definition exception_status (e : Exn) : Z :=
  match e with
  | ValidationError _ => 400
  | PermissionDenied => 403
  | _ => 500
  end.

Definition status_of (r : Result Response) : Z :=
  match r with
  | Ok resp => resp_status resp
  | Raise e => exception_status e
  end.

(** ** The monad of handlers: state passing with exceptions *)

Definition M (A : Type) : Type := State → Result A * State.

#[global] Instance M_ret : MRet M := λ A a st, (Ok a, st).
#[global] Instance M_bind : MBind M := λ A B f c st,
  match c st with
  | (Ok a, st') => f a st'
  | (Raise e, st') => (Raise e, st')
  end.

Definition raise {A} (e : Exn) : M A := λ st, (Raise e, st).
Definition lift_result {A} (r : Result A) : M A := λ st, (r, st).
Definition get_world : M World := λ st, (Ok (world st), st).
Definition put_world (w : World) : M unit :=
  λ st, (Ok tt, {| world := w; audit := audit st; trace := trace st |}).
Definition touch (a : Access) : M unit :=
  λ st, (Ok tt, {| world := world st; audit := audit st; trace := trace st ++ [a] |}).
Definition logger_event (e : Event) : M unit :=
  λ st, (Ok tt, {| world := world st; audit := audit st ++ [e]; trace := trace st |}).

(** [try: body  except <catches>: handler  else: orelse] *)
Definition try_except_else {A B} (body : M A) (catches : Exn → bool)
    (handler : M B) (orelse : A → M B) : M B := λ st,
  match body st with
  | (Ok a, st') => orelse a st'
  | (Raise e, st') => if catches e then handler st' else (Raise e, st')
  end.

(** ** Querysets *)

(** [queryset.get(...)]: exactly one row must match. *)
Definition queryset_get {A} (m : Model) (p : A → bool) (rows : list A) : Result A :=
  match List.filter p rows with
  | [] => Raise (DoesNotExist m)
  | [x] => Ok x
  | _ => Raise (MultipleObjectsReturned m)
  end.

(** [queryset.exists()] *)
Definition queryset_exists {A} (rows : list A) : bool :=
  match rows with [] => false | _ :: _ => true end.

Definition slug_is (slug : string) (s : string) : bool := String.eqb s slug.

(** [BadgeClass.objects.all().filter(issuer__slug=issuerSlug)] *)
Definition badgeclasses_of_issuer_slug (w : World) (issuerSlug : string) : list BadgeClass :=
  List.filter (λ bc, existsb (λ i, Z.eqb (issuer_id i) (bc_issuer_id bc)
                                    && slug_is issuerSlug (issuer_slug i))
                             (db_issuers w))
              (db_badgeclasses w).

(** [badgeclass.badgeinstances] and [issuer.badgeinstance_set] *)
Definition badgeinstances_of_badgeclass (w : World) (bc : BadgeClass) : list BadgeInstance :=
  List.filter (λ a, Z.eqb (bi_badgeclass_id a) (bc_id bc)) (db_instances w).
Definition badgeinstance_set (w : World) (i : Issuer) : list BadgeInstance :=
  List.filter (λ a, Z.eqb (bi_issuer_id a) (issuer_id i)) (db_instances w).

(** ** Collaborators outside [api.py] *)

(** What [has_object_permission] is handed: any model instance. *)
Inductive Entity :=
| EIssuer (i : Issuer)
| EBadgeClass (bc : BadgeClass)
| EBadgeInstance (a : BadgeInstance).

(** A permission class, as its [has_object_permission]. *)
Definition Permission : Type := World → Request → Entity → bool.

(** The imported names the views call and whose code is elsewhere:
    permission classes, model methods, serializers and [urlparse]. *)
Record Env := {
  (* mainsite.permissions, issuer.permissions *)
  AuthenticatedWithVerifiedEmail : Permission;
  MayEditBadgeClass : Permission;
  MayIssueBadgeClass : Permission;
  IsStaff : Permission;
  (* issuer.models.BadgeClass *)
  recipient_count : World → BadgeClass → nat;
  pathway_element_count : World → BadgeClass → nat;
  cached_completion_elements : World → BadgeClass → list Z;
  (* issuer.serializers_v1: [serializer.data], and the errors
     [is_valid] finds ([None] when the data is valid) *)
  BadgeClassSerializerV1_data : World → Request → BadgeClass → PyValue;
  BadgeClassSerializerV1_errors :
    World → Request → BadgeClass → gmap string PyValue → option string;
  BadgeInstanceSerializer_data : World → Request → BadgeInstance → PyValue;
  (* urlparse.urlparse(v).scheme, or the exception urlparse raises on [v] *)
  urlparse_scheme : PyValue → Result string
}.

(** What the generic endpoint code needs to know of a model class. *)
Class DjangoModel (A : Type) := {
  model_of : Model;
  slug_of : A → string;
  entity_of : A → Entity
}.

#[global] Instance Issuer_model : DjangoModel Issuer :=
  {| model_of := MIssuer; slug_of := issuer_slug; entity_of := EIssuer |}.
#[global] Instance BadgeClass_model : DjangoModel BadgeClass :=
  {| model_of := MBadgeClass; slug_of := bc_slug; entity_of := EBadgeClass |}.
#[global] Instance BadgeInstance_model : DjangoModel BadgeInstance :=
  {| model_of := MBadgeInstance; slug_of := bi_slug; entity_of := EBadgeInstance |}.

(** [queryset.get(slug=slug)] and [Model.cached.get(slug=slug)]: one query. *)
Definition objects_get `{DjangoModel A} (queryset : World → list A) (slug : string) : M A :=
  touch (DbRead (model_of (A:=A)));;
  w ← get_world;
  lift_result (queryset_get (model_of (A:=A)) (λ x, slug_is slug (slug_of x)) (queryset w)).

(** Every permission class of the view grants the object to the caller. *)
Definition permitted `{DjangoModel A} (permission_classes : list Permission)
    (w : World) (request : Request) (obj : A) : bool :=
  forallb (λ p : Permission, p w request (entity_of obj)) permission_classes.

(** rest_framework's [APIView.check_object_permissions]: every permission
    class of the view must grant, else [PermissionDenied] is raised (the
    caller of a handler is authenticated: the view's [has_permission]
    checks ran before it). *)
Definition check_object_permissions `{DjangoModel A}
    (permission_classes : list Permission) (request : Request) (obj : A) : M unit :=
  touch (ObjectPermission (model_of (A:=A)));;
  w ← get_world;
  if permitted permission_classes w request obj
  then mret tt
  else raise PermissionDenied.

Definition is_DoesNotExist (m : Model) (e : Exn) : bool :=
  match e with
  | DoesNotExist m' => bool_decide (m' = m)
  | _ => false
  end.
Definition is_PermissionDenied (e : Exn) : bool :=
  match e with PermissionDenied => true | _ => false end.
Definition is_ImportError (e : Exn) : bool :=
  match e with ImportError => true | _ => false end.

(** Modelled from the spec: [AbstractIssuerAPIEndpoint.get_object] of
    issuer/api_v1.py, which is not among the sources.  The spec has the
    object "exist and be resolvable under caller's permission scope, else
    NotFound" and the callers test the result against [None]: the row
    with the slug is fetched from the queryset, the view's object
    permissions are checked on it, and [None] is returned when the row is
    missing or the permission is denied. *)
Definition get_object `{DjangoModel A} (permission_classes : list Permission)
    (request : Request) (slug : string) (queryset : World → list A) : M (option A) :=
  try_except_else (objects_get queryset slug) (is_DoesNotExist (model_of (A:=A)))
    (mret None)
    (λ obj,
       try_except_else (check_object_permissions permission_classes request obj)
         is_PermissionDenied
         (mret None)
         (λ _, mret (Some obj))).

(** ** Writes *)

Definition with_badgeclasses (w : World) (l : list BadgeClass) : World :=
  {| db_issuers := db_issuers w; db_badgeclasses := l; db_instances := db_instances w;
     db_awards := db_awards w; storage := storage w;
     installed_apps := installed_apps w; badgebook_importable := badgebook_importable w |}.
Definition with_instances (w : World) (l : list BadgeInstance) : World :=
  {| db_issuers := db_issuers w; db_badgeclasses := db_badgeclasses w; db_instances := l;
     db_awards := db_awards w; storage := storage w;
     installed_apps := installed_apps w; badgebook_importable := badgebook_importable w |}.
Definition with_awards (w : World) (l : list BadgeObjectiveAward) : World :=
  {| db_issuers := db_issuers w; db_badgeclasses := db_badgeclasses w;
     db_instances := db_instances w; db_awards := l; storage := storage w;
     installed_apps := installed_apps w; badgebook_importable := badgebook_importable w |}.
Definition with_storage (w : World) (s : gset string) : World :=
  {| db_issuers := db_issuers w; db_badgeclasses := db_badgeclasses w;
     db_instances := db_instances w; db_awards := db_awards w; storage := s;
     installed_apps := installed_apps w; badgebook_importable := badgebook_importable w |}.

(** [obj.save()] of a fetched row: UPDATE ... WHERE id = obj.id *)
Definition update_row {A} (pk : A → Z) (obj : A) (rows : list A) : list A :=
  map (λ x, if Z.eqb (pk x) (pk obj) then obj else x) rows.
(** [obj.delete()]: DELETE ... WHERE id = obj.id (rows of other tables that
    point at it are not followed) *)
Definition delete_row {A} (pk : A → Z) (obj : A) (rows : list A) : list A :=
  List.filter (λ x, negb (Z.eqb (pk x) (pk obj))) rows.

Definition BadgeClass_save (bc : BadgeClass) : M unit :=
  touch (DbWrite MBadgeClass);;
  w ← get_world;
  put_world (with_badgeclasses w (update_row bc_id bc (db_badgeclasses w))).
Definition BadgeClass_delete (bc : BadgeClass) : M unit :=
  touch (DbWrite MBadgeClass);;
  w ← get_world;
  put_world (with_badgeclasses w (delete_row bc_id bc (db_badgeclasses w))).
Definition BadgeInstance_save (a : BadgeInstance) : M unit :=
  touch (DbWrite MBadgeInstance);;
  w ← get_world;
  put_world (with_instances w (update_row bi_id a (db_instances w))).
Definition BadgeObjectiveAward_delete (award : BadgeObjectiveAward) : M unit :=
  touch (DbWrite MBadgeObjectiveAward);;
  w ← get_world;
  put_world (with_awards w (delete_row award_id award (db_awards w))).

Definition set_revoked (a : BadgeInstance) (b : bool) : BadgeInstance :=
  {| bi_id := bi_id a; bi_slug := bi_slug a; bi_issuer_id := bi_issuer_id a;
     bi_badgeclass_id := bi_badgeclass_id a;
     bi_recipient_identifier := bi_recipient_identifier a;
     bi_revoked := b; bi_revocation_reason := bi_revocation_reason a;
     bi_image := bi_image a |}.
Definition set_revocation_reason (a : BadgeInstance) (v : PyValue) : BadgeInstance :=
  {| bi_id := bi_id a; bi_slug := bi_slug a; bi_issuer_id := bi_issuer_id a;
     bi_badgeclass_id := bi_badgeclass_id a;
     bi_recipient_identifier := bi_recipient_identifier a;
     bi_revoked := bi_revoked a; bi_revocation_reason := v;
     bi_image := bi_image a |}.
Definition set_image (a : BadgeInstance) (i : option string) : BadgeInstance :=
  {| bi_id := bi_id a; bi_slug := bi_slug a; bi_issuer_id := bi_issuer_id a;
     bi_badgeclass_id := bi_badgeclass_id a;
     bi_recipient_identifier := bi_recipient_identifier a;
     bi_revoked := bi_revoked a; bi_revocation_reason := bi_revocation_reason a;
     bi_image := i |}.

(** Django's [FieldFile.delete(save=True)] on [instance.image]: nothing when
    the field holds no file; else the file leaves the storage, the field is
    emptied and the instance is saved.  The emptied instance is returned
    (Python mutates it in place). *)
Definition image_delete (a : BadgeInstance) : M BadgeInstance :=
  match bi_image a with
  | None => mret a
  | Some name =>
      touch (StorageDelete name);;
      w ← get_world;
      put_world (with_storage w (storage w ∖ {[name]}));;
      let a' := set_image a None in
      BadgeInstance_save a';;
      mret a'
  end.

(** [apps.is_installed(name)] *)
Definition apps_is_installed (name : string) : M bool :=
  touch AppRegistry;;
  w ← get_world;
  mret (existsb (String.eqb name) (installed_apps w)).

(** [from badgebook.models import BadgeObjectiveAward, LmsCourseInfo] *)
Definition import_badgebook_models : M unit :=
  touch ModuleImport;;
  w ← get_world;
  if badgebook_importable w then mret tt else raise ImportError.

(** [d.pop(k)]: [KeyError] when the key is missing. *)
Definition dict_pop (d : gmap string PyValue) (k : string) : Result (gmap string PyValue) :=
  match d !! k with
  | Some _ => Ok (delete k d)
  | None => Raise (KeyError k)
  end.

(** Modelled from the spec: the update [BadgeClassSerializerV1.save()]
    performs (issuer/serializers_v1.py is not among the sources).  The data
    handed to the serializer is the "update set": a field it holds
    replaces the stored one, a field it lacks is left as stored. *)
Definition BadgeClassSerializerV1_update (bc : BadgeClass)
    (validated : gmap string PyValue) : BadgeClass :=
  {| bc_id := bc_id bc; bc_slug := bc_slug bc; bc_issuer_id := bc_issuer_id bc;
     bc_name := default (bc_name bc) (validated !! "name");
     bc_image := default (bc_image bc) (validated !! "image");
     bc_criteria := default (bc_criteria bc) (validated !! "criteria");
     bc_description := default (bc_description bc) (validated !! "description") |}.

(** ** class BadgeClassDetail(AbstractIssuerAPIEndpoint) *)
Module BadgeClassDetail.
Section with_env.
Context (env : Env).

Definition queryset (w : World) : list BadgeClass := db_badgeclasses w.
Definition permission_classes : list Permission :=
  [AuthenticatedWithVerifiedEmail env; MayEditBadgeClass env].

(** The body of the [try] all three handlers start with. *)
Definition lookup (request : Request) (badgeSlug : string) : M BadgeClass :=
  current_badgeclass ← objects_get queryset badgeSlug;
  check_object_permissions permission_classes request current_badgeclass;;
  mret current_badgeclass.

(** [except (BadgeClass.DoesNotExist, PermissionDenied)] *)
Definition caught (e : Exn) : bool :=
  is_DoesNotExist MBadgeClass e || is_PermissionDenied e.

Definition get (request : Request) (issuerSlug badgeSlug : string) : M Response :=
  try_except_else (lookup request badgeSlug) caught
    (mret {| resp_data := PStr ("BadgeClass " +:+ badgeSlug
                                +:+ " could not be found, or inadequate permissions.");
             resp_status := HTTP_404_NOT_FOUND |})
    (λ current_badgeclass,
       w ← get_world;
       mret {| resp_data := BadgeClassSerializerV1_data env w request current_badgeclass;
               resp_status := HTTP_200_OK |}).

(** The three model methods [delete] asks, each a query of its own. *)
Definition call_recipient_count (bc : BadgeClass) : M nat :=
  touch (DbRead MBadgeInstance);;
  w ← get_world;
  mret (recipient_count env w bc).
Definition call_pathway_element_count (bc : BadgeClass) : M nat :=
  touch (DbRead MPathwayElement);;
  w ← get_world;
  mret (pathway_element_count env w bc).
Definition call_cached_completion_elements (bc : BadgeClass) : M (list Z) :=
  touch (DbRead MPathwayElement);;
  w ← get_world;
  mret (cached_completion_elements env w bc).

Definition delete (request : Request) (issuerSlug badgeSlug : string) : M Response :=
  try_except_else (lookup request badgeSlug) caught
    (mret {| resp_data := PNone; resp_status := HTTP_404_NOT_FOUND |})
    (λ current_badgeclass,
       n ← call_recipient_count current_badgeclass;
       if (0 <? n)%nat then
         mret {| resp_data :=
                   PStr "Badge could not be deleted. It has already been issued at least once.";
                 resp_status := HTTP_400_BAD_REQUEST |}
       else
         n ← call_pathway_element_count current_badgeclass;
         if (0 <? n)%nat then
           mret {| resp_data :=
                     PStr "Badge could not be deleted. It is being used as a pathway completion requirement.";
                   resp_status := HTTP_400_BAD_REQUEST |}
         else
           elements ← call_cached_completion_elements current_badgeclass;
           if (0 <? length elements)%nat then
             mret {| resp_data :=
                       PStr "Badge could not be deleted. It is being used as a pathway completion badge.";
                     resp_status := HTTP_400_BAD_REQUEST |}
           else
             let old_badgeclass := current_badgeclass in
             BadgeClass_delete current_badgeclass;;
             logger_event (BadgeClassDeletedEvent old_badgeclass (user request));;
             mret {| resp_data := PStr ("Badge " +:+ badgeSlug +:+ " has been deleted.");
                     resp_status := HTTP_200_OK |}).

(** Lines 244-247 of [put]: the update set handed to the serializer. *)
Definition cleaned_data_of (request : Request) : Result (gmap string PyValue) :=
  let new_image := dict_get (data request) "image" in
  let cleaned_data := data request in
  if negb (isinstance_UploadedFile new_image) then
    scheme ← urlparse_scheme env new_image;
    if negb (String.eqb scheme "data") then dict_pop cleaned_data "image"
    else mret cleaned_data
  else mret cleaned_data.

Definition put (request : Request) (issuerSlug badgeSlug : string) : M Response :=
  try_except_else (lookup request badgeSlug) caught
    (mret {| resp_data := PStr ("BadgeClass " +:+ badgeSlug
                                +:+ " could not be found, or inadequate permissions.");
             resp_status := HTTP_404_NOT_FOUND |})
    (λ current_badgeclass,
       cleaned_data ← lift_result (cleaned_data_of request);
       w ← get_world;
       match BadgeClassSerializerV1_errors env w request current_badgeclass cleaned_data with
       | Some detail => raise (ValidationError detail)
       | None =>
           let saved := BadgeClassSerializerV1_update current_badgeclass cleaned_data in
           BadgeClass_save saved;;
           w' ← get_world;
           mret {| resp_data := BadgeClassSerializerV1_data env w' request saved;
                   resp_status := HTTP_200_OK |}
       end).
End with_env.
End BadgeClassDetail.

(** [filter(revoked=False)] and [filter(recipient_identifier=r, revoked=False)] *)
Definition not_revoked (a : BadgeInstance) : bool := Bool.eqb (bi_revoked a) false.
Definition issued_to (recipient : string) (a : BadgeInstance) : bool :=
  String.eqb (bi_recipient_identifier a) recipient.

(** ** class BadgeInstanceList(AbstractIssuerAPIEndpoint) *)
Module BadgeInstanceList.
Section with_env.
Context (env : Env).

Definition permission_classes : list Permission :=
  [AuthenticatedWithVerifiedEmail env; MayIssueBadgeClass env].

Definition get (request : Request) (issuerSlug badgeSlug : string) : M Response :=
  let badgeclass_queryset := λ w, badgeclasses_of_issuer_slug w issuerSlug in
  current_badgeclass ← get_object permission_classes request badgeSlug badgeclass_queryset;
  match current_badgeclass with
  | None =>
      mret {| resp_data := PStr ("BadgeClass " +:+ badgeSlug
                                 +:+ " not found or inadequate permissions.");
              resp_status := HTTP_404_NOT_FOUND |}
  | Some current_badgeclass =>
      touch (DbRead MBadgeInstance);;
      w ← get_world;
      let badge_instances :=
        List.filter not_revoked (badgeinstances_of_badgeclass w current_badgeclass) in
      if negb (queryset_exists badge_instances) then
        mret {| resp_data := PList []; resp_status := HTTP_200_OK |}
      else
        mret {| resp_data := PList (map (BadgeInstanceSerializer_data env w request)
                                        badge_instances);
                resp_status := HTTP_200_OK |}
  end.
End with_env.
End BadgeInstanceList.

(** ** class IssuerBadgeInstanceList(AbstractIssuerAPIEndpoint) *)
Module IssuerBadgeInstanceList.
Section with_env.
Context (env : Env).

Definition queryset (w : World) : list Issuer := db_issuers w.
Definition permission_classes : list Permission :=
  [AuthenticatedWithVerifiedEmail env; IsStaff env].

Definition get (request : Request) (issuerSlug : string) : M Response :=
  current_issuer ← get_object permission_classes request issuerSlug queryset;
  match current_issuer with
  | None => mret {| resp_data := PNone; resp_status := HTTP_404_NOT_FOUND |}
  | Some current_issuer =>
      touch (DbRead MBadgeInstance);;
      w ← get_world;
      let instances :=
        match query_params request !! "recipient" with
        | Some recipient =>
            List.filter (λ a, issued_to recipient a && not_revoked a)
                        (badgeinstance_set w current_issuer)
        | None => List.filter not_revoked (badgeinstance_set w current_issuer)
        end in
      mret {| resp_data := PList (map (BadgeInstanceSerializer_data env w request) instances);
              resp_status := HTTP_200_OK |}
  end.
End with_env.
End IssuerBadgeInstanceList.

(** ** class BadgeInstanceDetail(AbstractIssuerAPIEndpoint) *)
Module BadgeInstanceDetail.
Section with_env.
Context (env : Env).

Definition queryset (w : World) : list BadgeInstance := db_instances w.
Definition permission_classes : list Permission :=
  [AuthenticatedWithVerifiedEmail env; MayEditBadgeClass env].

(** [except (BadgeInstance.DoesNotExist, PermissionDenied)] *)
Definition caught (e : Exn) : bool :=
  is_DoesNotExist MBadgeInstance e || is_PermissionDenied e.

Definition get (request : Request) (issuerSlug badgeSlug assertionSlug : string)
    : M Response :=
  try_except_else (objects_get queryset assertionSlug) caught
    (mret {| resp_data := PNone; resp_status := HTTP_404_NOT_FOUND |})
    (λ current_assertion,
       w ← get_world;
       mret {| resp_data := BadgeInstanceSerializer_data env w request current_assertion;
               resp_status := HTTP_200_OK |}).

(** The string literal of line 456 runs over a backslash-newline and so
    holds the indentation of line 457. *)
Definition revocation_reason_required : string :=
  "The parameter revocation_reason is required "
  +:+ "                                  "
  +:+ "to revoke a badge assertion".

(** [BadgeObjectiveAward.cached.get(badge_instance_id=id)] *)
Definition BadgeObjectiveAward_cached_get (id : Z) : M BadgeObjectiveAward :=
  touch (DbRead MBadgeObjectiveAward);;
  w ← get_world;
  lift_result (queryset_get MBadgeObjectiveAward
                 (λ x, Z.eqb (award_badge_instance_id x) id) (db_awards w)).

(** Lines 472-482: the award kept by the badgebook app, when installed. *)
Definition badgebook_cleanup (current_assertion : BadgeInstance) : M unit :=
  installed ← apps_is_installed "badgebook";
  if installed : bool then
    try_except_else
      (import_badgebook_models;;
       try_except_else
         (BadgeObjectiveAward_cached_get (bi_id current_assertion))
         (is_DoesNotExist MBadgeObjectiveAward)
         (mret tt)
         (λ award, BadgeObjectiveAward_delete award))
      is_ImportError
      (mret tt)
      (λ _, mret tt)
  else mret tt.

Definition delete (request : Request) (issuerSlug badgeSlug assertionSlug : string)
    : M Response :=
  if is_None (dict_get (data request) "revocation_reason") then
    raise (ValidationError revocation_reason_required)
  else
    current_assertion ← get_object permission_classes request assertionSlug queryset;
    match current_assertion with
    | None => mret {| resp_data := PNone; resp_status := HTTP_404_NOT_FOUND |}
    | Some current_assertion =>
        if bi_revoked current_assertion then
          mret {| resp_data := PStr "Assertion is already revoked.";
                  resp_status := HTTP_400_BAD_REQUEST |}
        else
          let current_assertion := set_revoked current_assertion true in
          let current_assertion :=
            set_revocation_reason current_assertion
              (dict_get (data request) "revocation_reason") in
          current_assertion ← image_delete current_assertion;
          BadgeInstance_save current_assertion;;
          badgebook_cleanup current_assertion;;
          logger_event (BadgeAssertionRevokedEvent current_assertion (user request));;
          mret {| resp_data := PStr ("Assertion " +:+ bi_slug current_assertion
                                     +:+ " has been revoked.");
                  resp_status := HTTP_200_OK |}
    end.
End with_env.
End BadgeInstanceDetail.

(** ** The handlers as one API *)

Inductive Call :=
| GET_BadgeClassDetail (request : Request) (issuerSlug badgeSlug : string)
| DELETE_BadgeClassDetail (request : Request) (issuerSlug badgeSlug : string)
| PUT_BadgeClassDetail (request : Request) (issuerSlug badgeSlug : string)
| GET_BadgeInstanceList (request : Request) (issuerSlug badgeSlug : string)
| GET_IssuerBadgeInstanceList (request : Request) (issuerSlug : string)
| GET_BadgeInstanceDetail (request : Request) (issuerSlug badgeSlug assertionSlug : string)
| DELETE_BadgeInstanceDetail (request : Request) (issuerSlug badgeSlug assertionSlug : string).

Definition dispatch (env : Env) (c : Call) : M Response :=
  match c with
  | GET_BadgeClassDetail r i b => BadgeClassDetail.get env r i b
  | DELETE_BadgeClassDetail r i b => BadgeClassDetail.delete env r i b
  | PUT_BadgeClassDetail r i b => BadgeClassDetail.put env r i b
  | GET_BadgeInstanceList r i b => BadgeInstanceList.get env r i b
  | GET_IssuerBadgeInstanceList r i => IssuerBadgeInstanceList.get env r i
  | GET_BadgeInstanceDetail r i b a => BadgeInstanceDetail.get env r i b a
  | DELETE_BadgeInstanceDetail r i b a => BadgeInstanceDetail.delete env r i b a
  end.

(** ** Vocabulary of the statements *)

(** The slug names exactly one row of the table, [obj]. *)
Definition resolves `{DjangoModel A} (rows : list A) (slug : string) (obj : A) : Prop :=
  queryset_get (model_of (A:=A)) (λ x, slug_is slug (slug_of x)) rows = Ok obj.

(** No row of the table has the slug. *)
Definition missing `{DjangoModel A} (rows : list A) (slug : string) : Prop :=
  queryset_get (model_of (A:=A)) (λ x, slug_is slug (slug_of x)) rows
  = Raise (DoesNotExist (model_of (A:=A))).

(** The awards that reference an instance. *)
Definition awards_of (w : World) (a : BadgeInstance) : list BadgeObjectiveAward :=
  List.filter (λ x, Z.eqb (award_badge_instance_id x) (bi_id a)) (db_awards w).

(** The revoked form of an instance: what revoke persists. *)
Definition revoked_form (a : BadgeInstance) (reason : PyValue) : BadgeInstance :=
  set_image (set_revocation_reason (set_revoked a true) reason) None.

Definition appended (st : State) (accesses : list Access) : State :=
  {| world := world st; audit := audit st; trace := trace st ++ accesses |}.

(** The answers of [BadgeClassDetail.delete]. *)
Definition badge_deleted (badgeSlug : string) : Response :=
  {| resp_data := PStr ("Badge " +:+ badgeSlug +:+ " has been deleted.");
     resp_status := HTTP_200_OK |}.
Definition already_issued : Response :=
  {| resp_data := PStr "Badge could not be deleted. It has already been issued at least once.";
     resp_status := HTTP_400_BAD_REQUEST |}.
Definition used_as_requirement : Response :=
  {| resp_data :=
       PStr "Badge could not be deleted. It is being used as a pathway completion requirement.";
     resp_status := HTTP_400_BAD_REQUEST |}.
Definition used_as_completion_badge : Response :=
  {| resp_data :=
       PStr "Badge could not be deleted. It is being used as a pathway completion badge.";
     resp_status := HTTP_400_BAD_REQUEST |}.

(** The 404 answers of the BadgeClassDetail handlers. *)
Definition badgeclass_not_found (badgeSlug : string) : Response :=
  {| resp_data := PStr ("BadgeClass " +:+ badgeSlug
                        +:+ " could not be found, or inadequate permissions.");
     resp_status := HTTP_404_NOT_FOUND |}.
Definition not_found : Response :=
  {| resp_data := PNone; resp_status := HTTP_404_NOT_FOUND |}.

(** The answers of [BadgeInstanceDetail.delete]. *)
Definition assertion_revoked (assertionSlug : string) : Response :=
  {| resp_data := PStr ("Assertion " +:+ assertionSlug +:+ " has been revoked.");
     resp_status := HTTP_200_OK |}.
Definition already_revoked : Response :=
  {| resp_data := PStr "Assertion is already revoked.";
     resp_status := HTTP_400_BAD_REQUEST |}.

(** A session: calls served one after the other, whatever they answer. *)
Definition run_calls (env : Env) (calls : list Call) (st : State) : State :=
  fold_left (λ st c, snd (dispatch env c st)) calls st.

(** Row by row, a table keeps its ids and its revoked flags that are set. *)
Definition revoked_kept (before after : list BadgeInstance) : Prop :=
  Forall2 (λ old new, bi_id new = bi_id old ∧ (bi_revoked old = true → bi_revoked new = true))
          before after.

(** The rows the issuer listing draws, with and without a recipient. *)
Definition listed_of_issuer (w : World) (request : Request) (i : Issuer) : list BadgeInstance :=
  match query_params request !! "recipient" with
  | Some recipient =>
      List.filter (λ a, issued_to recipient a && not_revoked a) (badgeinstance_set w i)
  | None => List.filter not_revoked (badgeinstance_set w i)
  end.

(** Where the badgebook app is installed and importable, at most one of
    its awards references the instance: the lookup of line 476 is a [get]. *)
Definition award_lookup_unambiguous (w : World) (a : BadgeInstance) : Prop :=
  existsb (String.eqb "badgebook") (installed_apps w) = true →
  badgebook_importable w = true →
  (length (awards_of w a) ≤ 1)%nat.

(** ** A concrete deployment, to run the handlers on *)
Module Demo.

Definition lower (c : ascii) : ascii :=
  let n := nat_of_ascii c in
  if ((65 <=? n) && (n <=? 90))%nat then ascii_of_nat (n + 32) else c.
Definition scheme_char (c : ascii) : bool :=
  let n := nat_of_ascii c in
  (((97 <=? n) && (n <=? 122)) || ((65 <=? n) && (n <=? 90))
   || ((48 <=? n) && (n <=? 57)) || (n =? 43) || (n =? 45) || (n =? 46))%nat.
Definition digit (c : ascii) : bool :=
  let n := nat_of_ascii c in ((48 <=? n) && (n <=? 57))%nat.
Fixpoint string_map (f : ascii → ascii) (s : string) : string :=
  match s with
  | EmptyString => EmptyString
  | String c s' => String (f c) (string_map f s')
  end.
Fixpoint string_forallb (f : ascii → bool) (s : string) : bool :=
  match s with
  | EmptyString => true
  | String c s' => f c && string_forallb f s'
  end.

(** The scheme Python 2.7's [urlsplit] finds in a string: the text before
    the first colon, lower-cased, when it is non-empty, made of scheme
    characters and not followed by a port number.  (The netloc is not
    parsed here.) *)
Definition scheme_of (url : string) : string :=
  match index 0 ":" url with
  | Some i =>
      if (0 <? i)%nat then
        let head := substring 0 i url in
        let rest := substring (i + 1) (String.length url - (i + 1)) url in
        if string_forallb scheme_char head
           && ((rest =? "")%string || negb (string_forallb digit rest))
        then string_map lower head
        else ""
      else ""
  | None => ""
  end.

Definition urlparse (v : PyValue) : Result string :=
  match v with
  | PStr s => Ok (scheme_of s)
  | PList _ | PDict _ => Raise (LibraryError "TypeError")
  | _ => Raise (LibraryError "AttributeError")
  end.

Definition is_user (name : string) : Permission := λ _ request _, String.eqb (user request) name.

Definition serialize_instance (a : BadgeInstance) : PyValue :=
  PDict [("slug", PStr (bi_slug a));
         ("recipient_identifier", PStr (bi_recipient_identifier a));
         ("revoked", PBool (bi_revoked a));
         ("revocation_reason", bi_revocation_reason a)].
Definition serialize_badgeclass (bc : BadgeClass) : PyValue :=
  PDict [("slug", PStr (bc_slug bc)); ("name", bc_name bc); ("image", bc_image bc)].

Definition env : Env :=
  {| AuthenticatedWithVerifiedEmail := λ _ _ _, true;
     MayEditBadgeClass := is_user "alice";
     MayIssueBadgeClass := is_user "alice";
     IsStaff := is_user "alice";
     recipient_count := λ w bc, length (badgeinstances_of_badgeclass w bc);
     pathway_element_count := λ _ _, 0%nat;
     cached_completion_elements := λ _ _, [];
     BadgeClassSerializerV1_data := λ _ _, serialize_badgeclass;
     BadgeClassSerializerV1_errors := λ _ _ _ d,
       match d !! "name" with
       | Some (PStr _) | None => None
       | Some _ => Some "name: Not a valid string."
       end;
     BadgeInstanceSerializer_data := λ _ _, serialize_instance;
     urlparse_scheme := urlparse |}.

(** The same deployment with a permission class that grants nobody. *)
Definition locked_env : Env :=
  {| AuthenticatedWithVerifiedEmail := λ _ _ _, true;
     MayEditBadgeClass := λ _ _ _, false;
     MayIssueBadgeClass := is_user "alice";
     IsStaff := is_user "alice";
     recipient_count := recipient_count env;
     pathway_element_count := pathway_element_count env;
     cached_completion_elements := cached_completion_elements env;
     BadgeClassSerializerV1_data := BadgeClassSerializerV1_data env;
     BadgeClassSerializerV1_errors := BadgeClassSerializerV1_errors env;
     BadgeInstanceSerializer_data := BadgeInstanceSerializer_data env;
     urlparse_scheme := urlparse |}.

Definition acme : Issuer := {| issuer_id := 1; issuer_slug := "acme" |}.

Definition excellence : BadgeClass :=
  {| bc_id := 10; bc_slug := "excellence"; bc_issuer_id := 1;
     bc_name := PStr "Excellence";
     bc_image := PStr "https://badges.example/media/excellence.png";
     bc_criteria := PStr "https://acme.example/criteria";
     bc_description := PStr "Awarded for excellent work" |}.
Definition merit : BadgeClass :=
  {| bc_id := 11; bc_slug := "merit"; bc_issuer_id := 1;
     bc_name := PStr "Merit";
     bc_image := PStr "https://badges.example/media/merit.png";
     bc_criteria := PStr "Shown merit";
     bc_description := PStr "Awarded for merit" |}.

Definition abc123 : BadgeInstance :=
  {| bi_id := 100; bi_slug := "abc123"; bi_issuer_id := 1; bi_badgeclass_id := 11;
     bi_recipient_identifier := "bob@example.org";
     bi_revoked := false; bi_revocation_reason := PNone;
     bi_image := Some "baked/abc123.png" |}.
Definition def456 : BadgeInstance :=
  {| bi_id := 101; bi_slug := "def456"; bi_issuer_id := 1; bi_badgeclass_id := 11;
     bi_recipient_identifier := "eve@example.org";
     bi_revoked := true; bi_revocation_reason := PStr "issued in error";
     bi_image := None |}.

Definition award_abc123 : BadgeObjectiveAward :=
  {| award_id := 7; award_badge_instance_id := 100 |}.

Definition w0 : World :=
  {| db_issuers := [acme];
     db_badgeclasses := [excellence; merit];
     db_instances := [abc123; def456];
     db_awards := [award_abc123];
     storage := {["baked/abc123.png"]};
     installed_apps := ["issuer"; "badgebook"];
     badgebook_importable := true |}.

Definition st0 : State := {| world := w0; audit := []; trace := [] |}.


(** The same world before the badge class "merit" was created. *)
Definition st_without_merit : State :=
  {| world := with_instances (with_badgeclasses w0 [excellence]) [];
     audit := []; trace := [] |}.

Definition request_of (who : string) (body : list (string * PyValue))
    (query : list (string * string)) : Request :=
  {| user := who; data := list_to_map body; query_params := list_to_map query |}.

Definition alice_plain : Request := request_of "alice" [] [].
Definition mallory_plain : Request := request_of "mallory" [] [].
Definition alice_revokes : Request :=
  request_of "alice" [("revocation_reason", PStr "policy violation")] [].
Definition alice_asks_bob : Request :=
  request_of "alice" [] [("recipient", "bob@example.org")].
Definition alice_data_uri : Request :=
  request_of "alice" [("image", PStr "data:image/png;base64,iVBORw0KGgo=")] [].
End Demo.

(** ** Python dicts inside the payload *)

(** [d[k] = v] on a dict kept as its items: the value of an existing key is
    replaced where it stands, a new key is added at the end. *)
Fixpoint pydict_set (k : string) (v : PyValue) (items : list (string * PyValue))
    : list (string * PyValue) :=
  match items with
  | [] => [(k, v)]
  | (k', v') :: rest =>
      if String.eqb k' k then (k, v) :: rest else (k', v') :: pydict_set k v rest
  end.

(** [d.get(k)] on a dict kept as its items. *)
Fixpoint pydict_get (k : string) (items : list (string * PyValue)) : option PyValue :=
  match items with
  | [] => None
  | (k', v') :: rest => if String.eqb k' k then Some v' else pydict_get k rest
  end.

(** ** class BatchAssertions(AbstractIssuerAPIEndpoint): lines 285-289 *)
Module BatchAssertions.

(** [_include_create_notification(a)]: item assignment under a string key
    works on a dict and is a TypeError on anything else. *)
Definition include_create_notification (create_notification : PyValue) (a : PyValue)
    : Result PyValue :=
  match a with
  | PDict items => Ok (PDict (pydict_set "create_notification" create_notification items))
  | _ => Raise (LibraryError "TypeError")
  end.

(** Python 2's [map(f, l)] over a list: the results in order, or the first
    exception. *)
Fixpoint map_result {A B} (f : A → Result B) (l : list A) : Result (list B) :=
  match l with
  | [] => Ok []
  | x :: rest =>
      y ← f x;
      ys ← map_result f rest;
      mret (y :: ys)
  end.

(** [map(_include_create_notification, request.data.get('assertions'))].
    A list is mapped over.  [None], a number and a boolean are not
    iterable.  A string yields its characters, a dict its keys and an
    uploaded file its lines: strings, on which the item assignment fails,
    so that only the empty ones give a result, the empty list. *)
Definition assertions_of (request : Request) : Result (list PyValue) :=
  let create_notification :=
    default (PBool false) (data request !! "create_notification") in
  match dict_get (data request) "assertions" with
  | PList l => map_result (include_create_notification create_notification) l
  | PStr s => if String.eqb s "" then Ok [] else Raise (LibraryError "TypeError")
  | PDict items =>
      match items with [] => Ok [] | _ :: _ => Raise (LibraryError "TypeError") end
  | PFile f =>
      if String.eqb (uf_content f) "" then Ok [] else Raise (LibraryError "TypeError")
  | PNone | PNum _ | PBool _ => Raise (LibraryError "TypeError")
  end.
End BatchAssertions.

(** Modelled from the spec: [AbstractIssuerAPIEndpoint.get_list] of
    issuer/api_v1.py, which is not among the sources.  The spec has the
    listing return the badge classes "if caller has read access; else fails
    with NotFound/Forbidden ... both surface as 404", and [BadgeClassList.get]
    tests the result with [exists()] and takes its element [0]: the rows
    with the slug are fetched, the view's object permissions are checked on
    the first, and the empty queryset is returned when there is no row or
    the permission is denied. *)
Definition get_list `{DjangoModel A} (permission_classes : list Permission)
    (request : Request) (slug : string) (queryset : World → list A) : M (list A) :=
  touch (DbRead (model_of (A:=A)));;
  w ← get_world;
  let obj := List.filter (λ x, slug_is slug (slug_of x)) (queryset w) in
  match obj with
  | [] => mret []
  | first :: _ =>
      try_except_else (check_object_permissions permission_classes request first)
        is_PermissionDenied
        (mret [])
        (λ _, mret obj)
  end.

(** [issuer.badgeclasses.all()] *)
Definition badgeclasses_of_issuer (w : World) (i : Issuer) : list BadgeClass :=
  List.filter (λ bc, Z.eqb (bc_issuer_id bc) (issuer_id i)) (db_badgeclasses w).

(** ** class BadgeClassList(AbstractIssuerAPIEndpoint): get *)
Module BadgeClassList.
Section with_env.
Context (env : Env).
(** [issuer.permissions.IsEditor], imported like the classes of [Env]. *)
Context (IsEditor : Permission).

Definition queryset (w : World) : list Issuer := db_issuers w.
Definition permission_classes : list Permission :=
  [AuthenticatedWithVerifiedEmail env; IsEditor].

Definition get (request : Request) (issuerSlug : string) : M Response :=
  current_issuer ← get_list permission_classes request issuerSlug queryset;
  match current_issuer with
  | [] =>
      mret {| resp_data := PStr ("Issuer " +:+ issuerSlug
                                 +:+ " not found or inadequate permissions.");
              resp_status := HTTP_404_NOT_FOUND |}
  | first :: _ =>
      touch (DbRead MBadgeClass);;
      w ← get_world;
      let issuer_badge_classes := badgeclasses_of_issuer w first in
      if negb (queryset_exists issuer_badge_classes) then
        mret {| resp_data := PList []; resp_status := HTTP_200_OK |}
      else
        mret {| resp_data := PList (map (BadgeClassSerializerV1_data env w request)
                                        issuer_badge_classes);
                resp_status := HTTP_200_OK |}
  end.
End with_env.
End BadgeClassList.

(** The primary key names one row of a table. *)
Definition pk_unique {A} (pk : A → Z) (rows : list A) (obj : A) : Prop :=
  ∀ x, In x rows → pk x = pk obj → x = obj.

(** ** Further requests on the concrete deployment *)
Module Scenario.
Definition alice_renames : Request :=
  Demo.request_of "alice" [("name", PStr "Excellence II")] [].
Definition alice_bad_name : Request :=
  Demo.request_of "alice" [("name", PNum 7);
                           ("image", PStr "data:image/png;base64,iVBORw0KGgo=")] [].
Definition alice_revokes_again : Request :=
  Demo.request_of "alice" [("revocation_reason", PStr "second thoughts")] [].
Definition alice_asks_nobody : Request :=
  Demo.request_of "alice" [] [("recipient", "nobody@example.org")].
Definition alice_batch : Request :=
  Demo.request_of "alice"
    [("create_notification", PBool true);
     ("assertions",
      PList [PDict [("recipient_identifier", PStr "bob@example.org")];
             PDict [("recipient_identifier", PStr "eve@example.org");
                    ("create_notification", PBool false)]])] [].
Definition alice_batch_of_strings : Request :=
  Demo.request_of "alice" [("assertions", PList [PStr "bob@example.org"])] [].

(** A second award for the assertion "abc123". *)
Definition st_two_awards : State :=
  {| world := with_awards Demo.w0
                [Demo.award_abc123; {| award_id := 8; award_badge_instance_id := 100 |}];
     audit := []; trace := [] |}.
End Scenario.

(** * Properties *)

(** ** Running the primitives *)

(** Unfolds the plumbing of the monad and leaves the model's own calls. *)
Ltac run_M :=
  cbv beta iota zeta delta
    [mbind M_bind mret M_ret touch get_world put_world logger_event raise
     lift_result try_except_else appended];
  cbn [world audit trace fst snd db_issuers db_badgeclasses db_instances db_awards
       storage installed_apps badgebook_importable
       with_badgeclasses with_instances with_awards with_storage].

Lemma objects_get_run `{DjangoModel A} (queryset : World → list A) slug st :
  objects_get queryset slug st
  = (queryset_get (model_of (A:=A)) (λ x, slug_is slug (slug_of x)) (queryset (world st)),
     appended st [DbRead (model_of (A:=A))]).
Proof. reflexivity. Qed.

Lemma check_object_permissions_run `{DjangoModel A} perms request (obj : A) st :
  check_object_permissions perms request obj st
  = (if permitted perms (world st) request obj then Ok tt else Raise PermissionDenied,
     appended st [ObjectPermission (model_of (A:=A))]).
Proof.
  unfold check_object_permissions, mbind, M_bind; cbn.
  by destruct (permitted perms (world st) request obj).
Qed.

Lemma is_DoesNotExist_same m : is_DoesNotExist m (DoesNotExist m) = true.
Proof. unfold is_DoesNotExist. by rewrite bool_decide_eq_true. Qed.

Lemma queryset_get_In {A} m (p : A → bool) rows x :
  queryset_get m p rows = Ok x → In x rows ∧ p x = true.
Proof.
  unfold queryset_get. destruct (List.filter p rows) as [|y [|z l]] eqn:E; intros Hx;
    inversion Hx; subst.
  apply filter_In. rewrite E. by left.
Qed.

(** [get_object]: the row when it is there and granted, [None] when it is
    missing or denied; the world and the audit log are never touched. *)
Lemma get_object_found `{DjangoModel A} perms request slug (queryset : World → list A) st obj :
  resolves (queryset (world st)) slug obj →
  permitted perms (world st) request obj = true →
  get_object perms request slug queryset st
  = (Ok (Some obj),
     appended st [DbRead (model_of (A:=A)); ObjectPermission (model_of (A:=A))]).
Proof.
  intros Hr Hp. unfold get_object, try_except_else.
  rewrite objects_get_run. unfold resolves in Hr. rewrite Hr.
  rewrite check_object_permissions_run. cbn [world appended]. rewrite Hp.
  unfold appended; cbn. by rewrite <- ?app_assoc.
Qed.

Lemma get_object_missing `{DjangoModel A} perms request slug (queryset : World → list A) st :
  missing (queryset (world st)) slug →
  get_object perms request slug queryset st
  = (Ok None, appended st [DbRead (model_of (A:=A))]).
Proof.
  intros Hm. unfold get_object, try_except_else.
  rewrite objects_get_run. unfold missing in Hm. rewrite Hm.
  by rewrite is_DoesNotExist_same.
Qed.

Lemma get_object_denied `{DjangoModel A} perms request slug (queryset : World → list A) st obj :
  resolves (queryset (world st)) slug obj →
  permitted perms (world st) request obj = false →
  get_object perms request slug queryset st
  = (Ok None,
     appended st [DbRead (model_of (A:=A)); ObjectPermission (model_of (A:=A))]).
Proof.
  intros Hr Hp. unfold get_object, try_except_else.
  rewrite objects_get_run. unfold resolves in Hr. rewrite Hr.
  rewrite check_object_permissions_run. cbn [world appended]. rewrite Hp.
  unfold appended; cbn. by rewrite <- ?app_assoc.
Qed.

(** Whatever [get_object] answers, it leaves the world and the audit log. *)
Lemma get_object_frame `{DjangoModel A} perms request slug (queryset : World → list A) st :
  world (snd (get_object perms request slug queryset st)) = world st
  ∧ audit (snd (get_object perms request slug queryset st)) = audit st.
Proof.
  unfold get_object, try_except_else. rewrite objects_get_run.
  destruct (queryset_get _ _ _) as [obj|e].
  - rewrite check_object_permissions_run. cbn [world appended].
    by destruct (permitted perms (world st) request obj).
  - by destruct (is_DoesNotExist _ e).
Qed.

(** The [try] of the three BadgeClassDetail handlers. *)
Lemma BadgeClassDetail_lookup_run env request slug st :
  BadgeClassDetail.lookup env request slug st
  = match queryset_get MBadgeClass (λ x, slug_is slug (bc_slug x))
            (db_badgeclasses (world st)) with
    | Ok bc =>
        (if permitted (BadgeClassDetail.permission_classes env) (world st) request bc
         then Ok bc else Raise PermissionDenied,
         appended st [DbRead MBadgeClass; ObjectPermission MBadgeClass])
    | Raise e => (Raise e, appended st [DbRead MBadgeClass])
    end.
Proof.
  unfold BadgeClassDetail.lookup, mbind, M_bind. rewrite objects_get_run.
  cbn [model_of slug_of BadgeClass_model BadgeClassDetail.queryset].
  destruct (queryset_get _ _ _) as [bc|e]; [|done].
  rewrite check_object_permissions_run. cbn [world appended].
  destruct (permitted _ _ _ _); unfold appended; cbn; by rewrite <- ?app_assoc.
Qed.

(** ** Deleting a badge class *)

(** What [delete] does with a badge class it has found and may edit. *)
Lemma BadgeClassDetail_delete_run env request issuerSlug badgeSlug st bc :
  resolves (db_badgeclasses (world st)) badgeSlug bc →
  permitted (BadgeClassDetail.permission_classes env) (world st) request bc = true →
  let w := world st in
  let out := BadgeClassDetail.delete env request issuerSlug badgeSlug st in
  fst out
  = Ok (if (0 <? recipient_count env w bc)%nat then already_issued
        else if (0 <? pathway_element_count env w bc)%nat then used_as_requirement
        else if (0 <? length (cached_completion_elements env w bc))%nat
             then used_as_completion_badge
        else badge_deleted badgeSlug)
  ∧ world (snd out)
    = (if (0 <? recipient_count env w bc)%nat
          || (0 <? pathway_element_count env w bc)%nat
          || (0 <? length (cached_completion_elements env w bc))%nat
       then w
       else with_badgeclasses w (delete_row bc_id bc (db_badgeclasses w)))
  ∧ audit (snd out)
    = (if (0 <? recipient_count env w bc)%nat
          || (0 <? pathway_element_count env w bc)%nat
          || (0 <? length (cached_completion_elements env w bc))%nat
       then audit st
       else (audit st ++ [BadgeClassDeletedEvent bc (user request)])%list).
Proof.
  intros Hr Hp w out. subst out w.
  unfold BadgeClassDetail.delete, try_except_else.
  rewrite BadgeClassDetail_lookup_run. unfold resolves in Hr.
  cbn [model_of slug_of BadgeClass_model] in Hr. rewrite Hr, Hp.
  unfold BadgeClassDetail.call_recipient_count,
    BadgeClassDetail.call_pathway_element_count,
    BadgeClassDetail.call_cached_completion_elements, BadgeClass_delete.
  run_M.
  destruct (0 <? recipient_count env _ bc)%nat; [done|]. 
  destruct (0 <? pathway_element_count env _ bc)%nat; [done|].
  destruct (0 <? length (cached_completion_elements env _ bc))%nat; done.
Qed.

(** C1.  For a badge class the caller has found and may edit, [delete]
    answers 200 "Badge <slug> has been deleted." exactly when
    [recipient_count()] is 0, [pathway_element_count()] is 0 and
    [cached_completion_elements()] is empty; otherwise it answers 400 with
    the message of the first check that fails, in the order recipient
    count, pathway element count, completion elements.  The row is removed
    and the deletion logged only on success. *)
Theorem delete_succeeds_iff_unused env request issuerSlug badgeSlug st bc :
  resolves (db_badgeclasses (world st)) badgeSlug bc →
  permitted (BadgeClassDetail.permission_classes env) (world st) request bc = true →
  let w := world st in
  let out := BadgeClassDetail.delete env request issuerSlug badgeSlug st in
  let unused :=
    recipient_count env w bc = 0%nat
    ∧ pathway_element_count env w bc = 0%nat
    ∧ cached_completion_elements env w bc = [] in
  (fst out = Ok (badge_deleted badgeSlug) ↔ unused)
  ∧ ((0 < recipient_count env w bc)%nat → fst out = Ok already_issued)
  ∧ (recipient_count env w bc = 0%nat → (0 < pathway_element_count env w bc)%nat →
     fst out = Ok used_as_requirement)
  ∧ (recipient_count env w bc = 0%nat → pathway_element_count env w bc = 0%nat →
     cached_completion_elements env w bc ≠ [] →
     fst out = Ok used_as_completion_badge)
  ∧ (unused →
     db_badgeclasses (world (snd out)) = delete_row bc_id bc (db_badgeclasses w)
     ∧ audit (snd out) = (audit st ++ [BadgeClassDeletedEvent bc (user request)])%list)
  ∧ (¬ unused → status_of (fst out) = 400 ∧ world (snd out) = w ∧ audit (snd out) = audit st).
Proof.
  intros Hr Hp w out unused.
  destruct (BadgeClassDetail_delete_run env request issuerSlug badgeSlug st bc Hr Hp)
    as (Hres & Hw & Ha).
  fold w out in Hres, Hw, Ha. subst unused.
  destruct (recipient_count env w bc) as [|rc] eqn:Erc; cbn in Hres, Hw, Ha.
  2:{ rewrite Hres, Hw, Ha. repeat split; try done; try lia.
      all: intros; try lia; intuition discriminate. }
  destruct (pathway_element_count env w bc) as [|pc] eqn:Epc; cbn in Hres, Hw, Ha.
  2:{ rewrite Hres, Hw, Ha. repeat split; try done; try lia.
      all: intros; try lia; intuition discriminate. }
  destruct (cached_completion_elements env w bc) as [|x l] eqn:Ece; cbn in Hres, Hw, Ha.
  2:{ rewrite Hres, Hw, Ha. repeat split; try done; try lia.
      all: intros; try lia; intuition discriminate. }
  rewrite Hres, Hw, Ha. repeat split; try done; try lia.
  all: intros; try lia; intuition congruence.
Qed.

Lemma delete_succeeds_iff_unused_witness :
  resolves (db_badgeclasses Demo.w0) "excellence" Demo.excellence
  ∧ permitted (BadgeClassDetail.permission_classes Demo.env) Demo.w0
      Demo.alice_plain Demo.excellence = true
  ∧ (fst (BadgeClassDetail.delete Demo.env Demo.alice_plain "acme" "excellence" Demo.st0)
     = Ok (badge_deleted "excellence")
     ↔ recipient_count Demo.env Demo.w0 Demo.excellence = 0%nat
       ∧ pathway_element_count Demo.env Demo.w0 Demo.excellence = 0%nat
       ∧ cached_completion_elements Demo.env Demo.w0 Demo.excellence = []).
Proof.
  split; [reflexivity|]. split; [reflexivity|].
  apply (delete_succeeds_iff_unused Demo.env Demo.alice_plain "acme" "excellence"
           Demo.st0 Demo.excellence); reflexivity.
Defined.

(** ** Missing and forbidden badge classes *)

Lemma BadgeClassDetail_lookup_missing env request slug st :
  missing (db_badgeclasses (world st)) slug →
  BadgeClassDetail.lookup env request slug st
  = (Raise (DoesNotExist MBadgeClass), appended st [DbRead MBadgeClass]).
Proof.
  intros Hm. rewrite BadgeClassDetail_lookup_run. unfold missing in Hm.
  cbn [model_of slug_of BadgeClass_model] in Hm. by rewrite Hm.
Qed.

Lemma BadgeClassDetail_lookup_denied env request slug st bc :
  resolves (db_badgeclasses (world st)) slug bc →
  permitted (BadgeClassDetail.permission_classes env) (world st) request bc = false →
  BadgeClassDetail.lookup env request slug st
  = (Raise PermissionDenied, appended st [DbRead MBadgeClass; ObjectPermission MBadgeClass]).
Proof.
  intros Hr Hp. rewrite BadgeClassDetail_lookup_run. unfold resolves in Hr.
  cbn [model_of slug_of BadgeClass_model] in Hr. by rewrite Hr, Hp.
Qed.

Lemma BadgeClassDetail_lookup_found env request slug st bc :
  resolves (db_badgeclasses (world st)) slug bc →
  permitted (BadgeClassDetail.permission_classes env) (world st) request bc = true →
  BadgeClassDetail.lookup env request slug st
  = (Ok bc, appended st [DbRead MBadgeClass; ObjectPermission MBadgeClass]).
Proof.
  intros Hr Hp. rewrite BadgeClassDetail_lookup_run. unfold resolves in Hr.
  cbn [model_of slug_of BadgeClass_model] in Hr. by rewrite Hr, Hp.
Qed.

(** C7.  On the badge class detail, update and delete handlers, a badge
    class that does not exist and a badge class the caller may not edit are
    answered alike: the same 404 response (for GET and PUT with the text
    "BadgeClass <slug> could not be found, or inadequate permissions.", for
    DELETE with no body), and nothing is changed in either case. *)
Theorem missing_and_forbidden_alike env request issuerSlug badgeSlug st_missing st_denied bc :
  missing (db_badgeclasses (world st_missing)) badgeSlug →
  resolves (db_badgeclasses (world st_denied)) badgeSlug bc →
  permitted (BadgeClassDetail.permission_classes env) (world st_denied) request bc = false →
  let get := BadgeClassDetail.get env request issuerSlug badgeSlug in
  let put := BadgeClassDetail.put env request issuerSlug badgeSlug in
  let delete := BadgeClassDetail.delete env request issuerSlug badgeSlug in
  (fst (get st_missing) = Ok (badgeclass_not_found badgeSlug)
   ∧ fst (get st_denied) = Ok (badgeclass_not_found badgeSlug))
  ∧ (fst (put st_missing) = Ok (badgeclass_not_found badgeSlug)
     ∧ fst (put st_denied) = Ok (badgeclass_not_found badgeSlug))
  ∧ (fst (delete st_missing) = Ok not_found ∧ fst (delete st_denied) = Ok not_found)
  ∧ Forall (λ handler : M Response,
              fst (handler st_missing) = fst (handler st_denied)
              ∧ status_of (fst (handler st_missing)) = 404
              ∧ world (snd (handler st_missing)) = world st_missing
              ∧ world (snd (handler st_denied)) = world st_denied)
           [get; put; delete].
Proof.
  intros Hm Hr Hp get put delete. subst get put delete.
  pose proof (BadgeClassDetail_lookup_missing env request badgeSlug st_missing Hm) as Em.
  pose proof (BadgeClassDetail_lookup_denied env request badgeSlug st_denied bc Hr Hp) as Ed.
  unfold BadgeClassDetail.get, BadgeClassDetail.put, BadgeClassDetail.delete.
  repeat rewrite Forall_cons. rewrite Forall_nil.
  unfold try_except_else. rewrite Em, Ed. done.
Qed.

Lemma missing_and_forbidden_alike_witness :
  fst (BadgeClassDetail.get Demo.env Demo.mallory_plain "acme" "merit" Demo.st_without_merit)
  = fst (BadgeClassDetail.get Demo.env Demo.mallory_plain "acme" "merit" Demo.st0)
  ∧ fst (BadgeClassDetail.delete Demo.env Demo.mallory_plain "acme" "merit"
           Demo.st_without_merit)
    = fst (BadgeClassDetail.delete Demo.env Demo.mallory_plain "acme" "merit" Demo.st0).
Proof.
  pose proof (missing_and_forbidden_alike Demo.env Demo.mallory_plain "acme" "merit"
                Demo.st_without_merit Demo.st0 Demo.merit
                eq_refl eq_refl eq_refl) as (Hget & _ & Hdelete & _).
  destruct Hget as [-> ->]. destruct Hdelete as [-> ->]. split; reflexivity.
Defined.

(** ** Updating a badge class *)

Lemma queryset_get_only {A} m (p : A → bool) rows obj :
  queryset_get m p rows = Ok obj → List.filter p rows = [obj].
Proof.
  unfold queryset_get. destruct (List.filter p rows) as [|y [|z l]]; intros E;
    inversion E; done.
Qed.



(** The update set: what lines 244-247 leave of the payload. *)
Lemma cleaned_data_of_run env request :
  BadgeClassDetail.cleaned_data_of env request
  = (let new_image := dict_get (data request) "image" in
     if isinstance_UploadedFile new_image then Ok (data request)
     else match urlparse_scheme env new_image with
          | Ok scheme =>
              if String.eqb scheme "data" then Ok (data request)
              else match data request !! "image" with
                   | Some _ => Ok (delete "image" (data request))
                   | None => Raise (KeyError "image")
                   end
          | Raise e => Raise e
          end).
Proof.
  unfold BadgeClassDetail.cleaned_data_of, dict_pop. cbv zeta.
  destruct (isinstance_UploadedFile _); cbn [negb]; [done|].
  unfold mbind, Result_bind. destruct (urlparse_scheme env _) as [scheme|e]; [|done].
  by destruct (String.eqb scheme "data").
Qed.




(** ** Revoking an assertion *)

Lemma update_row_idempotent {A} (pk : A → Z) obj rows :
  update_row pk obj (update_row pk obj rows) = update_row pk obj rows.
Proof.
  unfold update_row. rewrite map_map. apply map_ext. intros x.
  destruct (Z.eqb_spec (pk x) (pk obj)) as [Heq|Hne].
  - by rewrite Z.eqb_refl.
  - by destruct (Z.eqb_spec (pk x) (pk obj)).
Qed.

Lemma set_image_same a : bi_image a = None → set_image a None = a.
Proof. destruct a; cbn; by intros ->. Qed.

(** Lines 472-482, case by case. *)
Lemma badgebook_cleanup_run a st :
  BadgeInstanceDetail.badgebook_cleanup a st
  = let w := world st in
    if existsb (String.eqb "badgebook") (installed_apps w) then
      if badgebook_importable w then
        match awards_of w a with
        | [] => (Ok tt, appended st [AppRegistry; ModuleImport; DbRead MBadgeObjectiveAward])
        | [award] =>
            (Ok tt,
             {| world := with_awards w (delete_row award_id award (db_awards w));
                audit := audit st;
                trace := trace st ++ [AppRegistry; ModuleImport; DbRead MBadgeObjectiveAward;
                                      DbWrite MBadgeObjectiveAward] |})
        | _ => (Raise (MultipleObjectsReturned MBadgeObjectiveAward),
                appended st [AppRegistry; ModuleImport; DbRead MBadgeObjectiveAward])
        end
      else (Ok tt, appended st [AppRegistry; ModuleImport])
    else (Ok tt, appended st [AppRegistry]).
Proof.
  unfold BadgeInstanceDetail.badgebook_cleanup, apps_is_installed, import_badgebook_models,
    BadgeInstanceDetail.BadgeObjectiveAward_cached_get, BadgeObjectiveAward_delete,
    queryset_get, awards_of.
  run_M.
  destruct (existsb _ _); run_M; [|done].
  destruct (badgebook_importable _); run_M; [|by rewrite <- ?app_assoc].
  destruct (List.filter _ _) as [|award [|award' l]];
    run_M; cbn [is_DoesNotExist]; rewrite ?bool_decide_eq_true_2 by done;
    by rewrite <- ?app_assoc.
Qed.

(** The cleanup touches nothing but the awards table. *)
Lemma badgebook_cleanup_frame a st :
  let out := BadgeInstanceDetail.badgebook_cleanup a st in
  db_instances (world (snd out)) = db_instances (world st)
  ∧ db_badgeclasses (world (snd out)) = db_badgeclasses (world st)
  ∧ storage (world (snd out)) = storage (world st)
  ∧ audit (snd out) = audit st.
Proof.
  cbv zeta. rewrite badgebook_cleanup_run. cbv zeta.
  destruct (existsb _ _); [|done].
  destruct (badgebook_importable _); [|done].
  by destruct (awards_of _ _) as [|award [|award' l]].
Qed.

(** The state in which the cleanup starts: the instance is saved in its
    revoked form and its baked image has left the storage. *)
Lemma revoke_run env request issuerSlug badgeSlug assertionSlug st a :
  resolves (db_instances (world st)) assertionSlug a →
  permitted (BadgeInstanceDetail.permission_classes env) (world st) request a = true →
  is_None (dict_get (data request) "revocation_reason") = false →
  bi_revoked a = false →
  let w := world st in
  let a' := revoked_form a (dict_get (data request) "revocation_reason") in
  ∃ st1,
    world st1
    = with_instances
        (with_storage w (match bi_image a with
                         | Some name => storage w ∖ {[name]}
                         | None => storage w
                         end))
        (update_row bi_id a' (db_instances w))
    ∧ audit st1 = audit st
    ∧ BadgeInstanceDetail.delete env request issuerSlug badgeSlug assertionSlug st
      = match BadgeInstanceDetail.badgebook_cleanup a' st1 with
        | (Ok _, st2) =>
            (Ok (assertion_revoked (bi_slug a)),
             {| world := world st2;
                audit := (audit st2 ++ [BadgeAssertionRevokedEvent a' (user request)])%list;
                trace := trace st2 |})
        | (Raise e, st2) => (Raise e, st2)
        end.
Proof.
  intros Hr Hp Hreason Hrev w a'. subst w.
  unfold BadgeInstanceDetail.delete. rewrite Hreason.
  unfold mbind at 1. unfold M_bind at 1.
  rewrite (get_object_found _ request assertionSlug BadgeInstanceDetail.queryset st a Hr Hp).
  rewrite Hrev.
  cbv zeta. unfold image_delete.
  destruct (bi_image a) as [name|] eqn:Himg.
  - cbn [bi_image set_revocation_reason set_revoked]. rewrite Himg.
    unfold BadgeInstance_save. run_M. fold a'. 
    rewrite update_row_idempotent.
    eexists. split; [|split].
    3: reflexivity.
    all: reflexivity.
  - cbn [bi_image set_revocation_reason set_revoked]. rewrite Himg.
    unfold BadgeInstance_save. run_M.
    assert (set_revocation_reason (set_revoked a true)
              (dict_get (data request) "revocation_reason") = a') as ->.
    { subst a'. unfold revoked_form. by rewrite set_image_same. }
    eexists. split; [|split].
    3: reflexivity.
    all: reflexivity.
Qed.

Lemma get_object_run `{DjangoModel A} perms request slug (queryset : World → list A) st :
  get_object perms request slug queryset st
  = match queryset_get (model_of (A:=A)) (λ x, slug_is slug (slug_of x))
            (queryset (world st)) with
    | Ok obj =>
        (Ok (if permitted perms (world st) request obj then Some obj else None),
         appended st [DbRead (model_of (A:=A)); ObjectPermission (model_of (A:=A))])
    | Raise e =>
        (if is_DoesNotExist (model_of (A:=A)) e then Ok None else Raise e,
         appended st [DbRead (model_of (A:=A))])
    end.
Proof.
  unfold get_object, try_except_else. rewrite objects_get_run.
  destruct (queryset_get _ _ _) as [obj|e].
  - rewrite check_object_permissions_run. cbn [world appended].
    destruct (permitted perms (world st) request obj);
      unfold appended; cbn; by rewrite <- ?app_assoc.
  - by destruct (is_DoesNotExist _ e).
Qed.

Lemma resolves_slug `{DjangoModel A} (rows : list A) slug obj :
  resolves rows slug obj → slug_of obj = slug ∧ In obj rows.
Proof.
  intros Hr. apply queryset_get_In in Hr as [Hin Hs]. split; [|done].
  unfold slug_is in Hs. by apply String.eqb_eq in Hs.
Qed.

(** C4.  A revoke request whose [revocation_reason] is absent (missing or
    null) raises the validation error, answered 400, as its first step: the
    state is returned as it was, trace included, so that no instance was
    looked up, no permission checked and nothing read or written; the
    outcome is the same whatever the world holds. *)
Theorem revoke_without_reason_fails_first env request issuerSlug badgeSlug assertionSlug st :
  is_None (dict_get (data request) "revocation_reason") = true →
  BadgeInstanceDetail.delete env request issuerSlug badgeSlug assertionSlug st
  = (Raise (ValidationError BadgeInstanceDetail.revocation_reason_required), st)
  ∧ status_of (fst (BadgeInstanceDetail.delete env request issuerSlug badgeSlug
                      assertionSlug st)) = 400
  ∧ trace (snd (BadgeInstanceDetail.delete env request issuerSlug badgeSlug
                  assertionSlug st)) = trace st
  ∧ ∀ env' st', fst (BadgeInstanceDetail.delete env' request issuerSlug badgeSlug
                       assertionSlug st')
                = fst (BadgeInstanceDetail.delete env request issuerSlug badgeSlug
                         assertionSlug st).
Proof.
  intros Hnone. unfold BadgeInstanceDetail.delete. rewrite Hnone. done.
Qed.

Lemma revoke_without_reason_fails_first_witness :
  is_None (dict_get (data Demo.alice_plain) "revocation_reason") = true
  ∧ BadgeInstanceDetail.delete Demo.env Demo.alice_plain "acme" "merit" "abc123" Demo.st0
    = (Raise (ValidationError BadgeInstanceDetail.revocation_reason_required), Demo.st0).
Proof.
  split; [reflexivity|].
  apply (revoke_without_reason_fails_first Demo.env Demo.alice_plain "acme" "merit"
           "abc123" Demo.st0).
  reflexivity.
Defined.

(** ** Revoked is terminal *)

Lemma revoked_kept_refl rows : revoked_kept rows rows.
Proof. unfold revoked_kept. induction rows; constructor; auto. Qed.

Lemma revoked_kept_trans l1 l2 l3 :
  revoked_kept l1 l2 → revoked_kept l2 l3 → revoked_kept l1 l3.
Proof.
  unfold revoked_kept. intros H12. revert l3.
  induction H12 as [|x y l1 l2 [Hid Hrev] _ IH]; intros l3 H23; inversion H23; subst.
  - constructor.
  - constructor; [|by apply IH].
    destruct H1 as [Hid' Hrev']. split; [congruence|auto].
Qed.

Lemma revoked_kept_update_row obj rows :
  bi_revoked obj = true → revoked_kept rows (update_row bi_id obj rows).
Proof.
  intros Hobj. unfold revoked_kept, update_row.
  induction rows as [|x rows IH]; cbn; constructor; [|done].
  destruct (Z.eqb_spec (bi_id x) (bi_id obj)); auto.
Qed.

Lemma revoked_kept_In before after a :
  revoked_kept before after → In a before → bi_revoked a = true →
  ∃ a', In a' after ∧ bi_id a' = bi_id a ∧ bi_revoked a' = true.
Proof.
  unfold revoked_kept. induction 1 as [|x y l1 l2 [Hid Hrev] _ IH]; intros Hin Ha.
  - destruct Hin.
  - destruct Hin as [->|Hin].
    + exists y. split; [by left|]. auto.
    + destruct (IH Hin Ha) as (a' & Hin' & Hrest). exists a'. split; [by right|done].
Qed.

(** Case analysis on whatever a handler branches on. *)
Ltac crunch :=
  repeat (run_M;
          match goal with
          | |- context [match ?x with _ => _ end] => destruct x eqn:?
          end);
  run_M.

Lemma BadgeClassDetail_frame env request issuerSlug badgeSlug st :
  Forall (λ handler : M Response,
            db_instances (world (snd (handler st))) = db_instances (world st))
         [BadgeClassDetail.get env request issuerSlug badgeSlug;
          BadgeClassDetail.put env request issuerSlug badgeSlug;
          BadgeClassDetail.delete env request issuerSlug badgeSlug].
Proof.
  repeat rewrite Forall_cons. rewrite Forall_nil.
  unfold BadgeClassDetail.get, BadgeClassDetail.put, BadgeClassDetail.delete,
    try_except_else.
  rewrite BadgeClassDetail_lookup_run.
  unfold BadgeClassDetail.call_recipient_count, BadgeClassDetail.call_pathway_element_count,
    BadgeClassDetail.call_cached_completion_elements, BadgeClass_delete, BadgeClass_save.
  destruct (queryset_get _ _ _) as [bc|e].
  - destruct (permitted _ _ _ _).
    + repeat split; crunch; done.
    + repeat split; crunch; done.
  - repeat split; crunch; done.
Qed.

Lemma listing_frame env request issuerSlug badgeSlug st :
  world (snd (BadgeInstanceList.get env request issuerSlug badgeSlug st)) = world st
  ∧ world (snd (IssuerBadgeInstanceList.get env request issuerSlug st)) = world st
  ∧ ∀ assertionSlug,
      world (snd (BadgeInstanceDetail.get env request issuerSlug badgeSlug assertionSlug st))
      = world st.
Proof.
  unfold BadgeInstanceList.get, IssuerBadgeInstanceList.get, BadgeInstanceDetail.get.
  split; [|split].
  - unfold mbind at 1; unfold M_bind at 1.
    pose proof (get_object_frame (BadgeInstanceList.permission_classes env) request
                  badgeSlug (λ w, badgeclasses_of_issuer_slug w issuerSlug) st) as [Hw _].
    destruct (get_object _ _ _ _ st) as [[[bc|]|e] st1]; cbn [snd] in Hw;
      run_M; [|done..].
    by destruct (negb _).
  - unfold mbind at 1; unfold M_bind at 1.
    pose proof (get_object_frame (IssuerBadgeInstanceList.permission_classes env) request
                  issuerSlug IssuerBadgeInstanceList.queryset st) as [Hw _].
    by destruct (get_object _ _ _ _ st) as [[[i|]|e] st1]; cbn [snd] in Hw; run_M.
  - intros assertionSlug. unfold try_except_else. rewrite objects_get_run.
    destruct (queryset_get _ _ _) as [a|e]; [done|].
    by destruct (BadgeInstanceDetail.caught e).
Qed.

Lemma revoke_revoked_kept env request issuerSlug badgeSlug assertionSlug st :
  revoked_kept (db_instances (world st))
    (db_instances
       (world (snd (BadgeInstanceDetail.delete env request issuerSlug badgeSlug
                      assertionSlug st)))).
Proof.
  destruct (is_None (dict_get (data request) "revocation_reason")) eqn:Hreason.
  { unfold BadgeInstanceDetail.delete. rewrite Hreason. apply revoked_kept_refl. }
  destruct (queryset_get (model_of (A:=BadgeInstance))
              (λ x, slug_is assertionSlug (slug_of x))
              (BadgeInstanceDetail.queryset (world st))) as [a|e] eqn:Hr.
  2:{ unfold BadgeInstanceDetail.delete. rewrite Hreason.
      unfold mbind at 1; unfold M_bind at 1. rewrite get_object_run. rewrite Hr.
      destruct (is_DoesNotExist _ e); apply revoked_kept_refl. }
  destruct (permitted (BadgeInstanceDetail.permission_classes env) (world st) request a)
    eqn:Hp.
  2:{ unfold BadgeInstanceDetail.delete. rewrite Hreason.
      unfold mbind at 1; unfold M_bind at 1. rewrite get_object_run.
      rewrite Hr, Hp. apply revoked_kept_refl. }
  destruct (bi_revoked a) eqn:Hrev.
  { unfold BadgeInstanceDetail.delete. rewrite Hreason.
    unfold mbind at 1; unfold M_bind at 1. rewrite get_object_run.
    rewrite Hr, Hp, Hrev. apply revoked_kept_refl. }
  destruct (revoke_run env request issuerSlug badgeSlug assertionSlug st a Hr Hp Hreason Hrev)
    as (st1 & Hw1 & _ & ->).
  pose proof (badgebook_cleanup_frame
                (revoked_form a (dict_get (data request) "revocation_reason")) st1)
    as (Hinst & _).
  destruct (BadgeInstanceDetail.badgebook_cleanup _ st1) as [[[]|e] st2];
    cbn [fst snd world] in *; rewrite Hinst, Hw1; cbn [db_instances with_instances];
    by apply revoked_kept_update_row.
Qed.

Lemma dispatch_revoked_kept env c st :
  revoked_kept (db_instances (world st)) (db_instances (world (snd (dispatch env c st)))).
Proof.
  destruct c as [r i b|r i b|r i b|r i b|r i|r i b s|r i b s]; cbn [dispatch].
  - pose proof (BadgeClassDetail_frame env r i b st) as H.
    repeat rewrite Forall_cons in H. destruct H as (-> & _). apply revoked_kept_refl.
  - pose proof (BadgeClassDetail_frame env r i b st) as H.
    repeat rewrite Forall_cons in H. destruct H as (_ & _ & -> & _). apply revoked_kept_refl.
  - pose proof (BadgeClassDetail_frame env r i b st) as H.
    repeat rewrite Forall_cons in H. destruct H as (_ & -> & _). apply revoked_kept_refl.
  - destruct (listing_frame env r i b st) as (-> & _). apply revoked_kept_refl.
  - destruct (listing_frame env r i "" st) as (_ & -> & _). apply revoked_kept_refl.
  - destruct (listing_frame env r i b st) as (_ & _ & H). rewrite H. apply revoked_kept_refl.
  - apply revoke_revoked_kept.
Qed.

Lemma run_calls_revoked_kept env calls st :
  revoked_kept (db_instances (world st)) (db_instances (world (run_calls env calls st))).
Proof.
  revert st. induction calls as [|c calls IH]; intros st; cbn.
  - apply revoked_kept_refl.
  - eapply revoked_kept_trans; [apply (dispatch_revoked_kept env c st)|apply IH].
Qed.

(** C2.  A revoke call that reaches an instance whose revoked flag is set
    is answered 400 (with "Assertion is already revoked." once a reason is
    given, with the validation error otherwise) and changes neither the
    world (tables and storage: the flag, the reason and the image stay as
    they were) nor the audit log.  Revoked is terminal: through any
    sequence of calls to the handlers, the instance's row stays revoked. *)
Theorem revoke_already_revoked env request issuerSlug badgeSlug assertionSlug st a :
  resolves (db_instances (world st)) assertionSlug a →
  permitted (BadgeInstanceDetail.permission_classes env) (world st) request a = true →
  bi_revoked a = true →
  let out := BadgeInstanceDetail.delete env request issuerSlug badgeSlug assertionSlug st in
  status_of (fst out) = 400
  ∧ (is_None (dict_get (data request) "revocation_reason") = false →
     fst out = Ok already_revoked)
  ∧ world (snd out) = world st
  ∧ audit (snd out) = audit st
  ∧ resolves (db_instances (world (snd out))) assertionSlug a
  ∧ ∀ calls, ∃ a', In a' (db_instances (world (run_calls env calls st)))
                   ∧ bi_id a' = bi_id a ∧ bi_revoked a' = true.
Proof.
  intros Hr Hp Hrev out.
  assert (out = if is_None (dict_get (data request) "revocation_reason")
                then (Raise (ValidationError BadgeInstanceDetail.revocation_reason_required),
                      st)
                else (Ok already_revoked,
                      appended st [DbRead MBadgeInstance; ObjectPermission MBadgeInstance]))
    as Hout.
  { subst out. unfold BadgeInstanceDetail.delete.
    destruct (is_None _) eqn:Hreason; [done|].
    unfold mbind at 1; unfold M_bind at 1.
    rewrite (get_object_found _ request assertionSlug BadgeInstanceDetail.queryset st a Hr Hp).
    by rewrite Hrev. }
  assert (world (snd out) = world st ∧ audit (snd out) = audit st
          ∧ status_of (fst out) = 400
          ∧ (is_None (dict_get (data request) "revocation_reason") = false →
             fst out = Ok already_revoked)) as (Hw & Ha & Hs & Hresp).
  { rewrite Hout. by destruct (is_None _). }
  repeat split; try done.
  - by rewrite Hw.
  - intros calls. apply (revoked_kept_In (db_instances (world st))); [|by apply (resolves_slug _ _ _ Hr)|done].
    apply run_calls_revoked_kept.
Qed.

Lemma revoke_already_revoked_witness :
  resolves (db_instances Demo.w0) "def456" Demo.def456
  ∧ bi_revoked Demo.def456 = true
  ∧ fst (BadgeInstanceDetail.delete Demo.env Demo.alice_revokes "acme" "merit" "def456"
           Demo.st0) = Ok already_revoked
  ∧ world (snd (BadgeInstanceDetail.delete Demo.env Demo.alice_revokes "acme" "merit"
                  "def456" Demo.st0)) = Demo.w0.
Proof.
  pose proof (revoke_already_revoked Demo.env Demo.alice_revokes "acme" "merit" "def456"
                Demo.st0 Demo.def456 eq_refl eq_refl eq_refl) as (_ & Hresp & Hw & _).
  split; [reflexivity|]. split; [reflexivity|]. split; [|exact Hw].
  apply Hresp. reflexivity.
Defined.

(** ** A successful revoke *)

(** The state a revoke that reaches the mutation ends in. *)
Lemma revoke_completed env request issuerSlug badgeSlug assertionSlug st a :
  resolves (db_instances (world st)) assertionSlug a →
  permitted (BadgeInstanceDetail.permission_classes env) (world st) request a = true →
  is_None (dict_get (data request) "revocation_reason") = false →
  bi_revoked a = false →
  let w := world st in
  let a' := revoked_form a (dict_get (data request) "revocation_reason") in
  let out := BadgeInstanceDetail.delete env request issuerSlug badgeSlug assertionSlug st in
  let installed := existsb (String.eqb "badgebook") (installed_apps w) in
  let deleting := installed && badgebook_importable w in
  (db_instances (world (snd out)) = update_row bi_id a' (db_instances w)
   ∧ storage (world (snd out))
     = match bi_image a with Some name => storage w ∖ {[name]} | None => storage w end)
  ∧ (deleting = true → (2 ≤ length (awards_of w a))%nat →
     fst out = Raise (MultipleObjectsReturned MBadgeObjectiveAward)
     ∧ audit (snd out) = audit st)
  ∧ (award_lookup_unambiguous w a →
     fst out = Ok (assertion_revoked assertionSlug)
     ∧ audit (snd out) = (audit st ++ [BadgeAssertionRevokedEvent a' (user request)])%list
     ∧ db_awards (world (snd out))
       = if deleting then
           match awards_of w a with
           | [award] => delete_row award_id award (db_awards w)
           | _ => db_awards w
           end
         else db_awards w).
Proof.
  intros Hr Hp Hreason Hrev w a' out installed deleting.
  destruct (revoke_run env request issuerSlug badgeSlug assertionSlug st a Hr Hp Hreason Hrev)
    as (st1 & Hw1 & Ha1 & Heq).
  fold a' out in Heq. fold w in Hw1.
  destruct (resolves_slug _ _ _ Hr) as [Hslug _]. cbn [slug_of BadgeInstance_model] in Hslug.
  rewrite Hslug in Heq.
  rewrite badgebook_cleanup_run in Heq. cbv zeta in Heq.
  assert (awards_of (world st1) a' = awards_of w a) as Haw by (by rewrite Hw1).
  rewrite Haw in Heq. rewrite Hw1 in Heq.
  cbn [installed_apps badgebook_importable with_instances with_storage db_awards] in Heq.
  unfold award_lookup_unambiguous. fold installed in Heq |- *. subst deleting.
  destruct installed; cbn [andb].
  2:{ rewrite Heq. cbn [fst snd world audit appended]. rewrite Hw1, Ha1. done. }
  destruct (badgebook_importable w).
  2:{ rewrite Heq. cbn [fst snd world audit appended]. rewrite Hw1, Ha1. done. }
  destruct (awards_of w a) as [|award [|award' l]]; rewrite Heq;
    cbn [fst snd world audit appended length]; rewrite ?Hw1, ?Ha1.
  - split; [done|]. split; [intros _ ?; lia|]. done.
  - split; [done|]. split; [intros _ ?; lia|]. done.
  - split; [done|]. split; [done|]. intros Hle. specialize (Hle eq_refl eq_refl). lia.
Qed.






(** ** Listing assertions *)

Lemma not_revoked_true a : not_revoked a = true → bi_revoked a = false.
Proof. unfold not_revoked. by destruct (bi_revoked a). Qed.

(** The rows the badge class listing draws. *)
Lemma listed_of_badgeclass w bc :
  Forall (λ a, In a (db_instances w) ∧ bi_badgeclass_id a = bc_id bc ∧ bi_revoked a = false)
         (List.filter not_revoked (badgeinstances_of_badgeclass w bc)).
Proof.
  apply List.Forall_forall. intros a Ha.
  apply filter_In in Ha as [Ha Hrev]. unfold badgeinstances_of_badgeclass in Ha.
  apply filter_In in Ha as [Ha Hid]. apply Z.eqb_eq in Hid.
  auto using not_revoked_true.
Qed.

Lemma listed_of_issuer_spec w request i :
  Forall (λ a, In a (db_instances w) ∧ bi_issuer_id a = issuer_id i
               ∧ bi_revoked a = false
               ∧ ∀ recipient, query_params request !! "recipient" = Some recipient →
                              bi_recipient_identifier a = recipient)
         (listed_of_issuer w request i).
Proof.
  apply List.Forall_forall. intros a Ha. unfold listed_of_issuer in Ha.
  destruct (query_params request !! "recipient") as [recipient|].
  - apply filter_In in Ha as [Ha Hboth]. apply andb_true_iff in Hboth as [Hto Hrev].
    unfold badgeinstance_set in Ha. apply filter_In in Ha as [Ha Hid].
    apply Z.eqb_eq in Hid. unfold issued_to in Hto. apply String.eqb_eq in Hto.
    repeat split; auto using not_revoked_true. by intros ? [= <-].
  - apply filter_In in Ha as [Ha Hrev].
    unfold badgeinstance_set in Ha. apply filter_In in Ha as [Ha Hid].
    apply Z.eqb_eq in Hid. repeat split; auto using not_revoked_true. done.
Qed.

Lemma BadgeInstanceList_get_run env request issuerSlug badgeSlug st :
  let w := world st in
  fst (BadgeInstanceList.get env request issuerSlug badgeSlug st)
  = match queryset_get MBadgeClass (λ x, slug_is badgeSlug (bc_slug x))
            (badgeclasses_of_issuer_slug w issuerSlug) with
    | Ok bc =>
        if permitted (BadgeInstanceList.permission_classes env) w request bc
        then Ok {| resp_data :=
                     PList (map (BadgeInstanceSerializer_data env w request)
                              (List.filter not_revoked (badgeinstances_of_badgeclass w bc)));
                   resp_status := HTTP_200_OK |}
        else Ok {| resp_data := PStr ("BadgeClass " +:+ badgeSlug
                                      +:+ " not found or inadequate permissions.");
                   resp_status := HTTP_404_NOT_FOUND |}
    | Raise e =>
        if is_DoesNotExist MBadgeClass e
        then Ok {| resp_data := PStr ("BadgeClass " +:+ badgeSlug
                                      +:+ " not found or inadequate permissions.");
                   resp_status := HTTP_404_NOT_FOUND |}
        else Raise e
    end.
Proof.
  intros w. unfold BadgeInstanceList.get.
  unfold mbind at 1; unfold M_bind at 1. rewrite get_object_run.
  cbn [model_of slug_of BadgeClass_model]. fold w.
  destruct (queryset_get _ _ _) as [bc|e].
  - destruct (permitted _ w request bc); run_M; [|done]. fold w.
    by destruct (List.filter not_revoked (badgeinstances_of_badgeclass w bc)).
  - by destruct (is_DoesNotExist MBadgeClass e).
Qed.

Lemma IssuerBadgeInstanceList_get_run env request issuerSlug st :
  let w := world st in
  fst (IssuerBadgeInstanceList.get env request issuerSlug st)
  = match queryset_get MIssuer (λ x, slug_is issuerSlug (issuer_slug x)) (db_issuers w) with
    | Ok i =>
        if permitted (IssuerBadgeInstanceList.permission_classes env) w request i
        then Ok {| resp_data :=
                     PList (map (BadgeInstanceSerializer_data env w request)
                              (listed_of_issuer w request i));
                   resp_status := HTTP_200_OK |}
        else Ok {| resp_data := PNone; resp_status := HTTP_404_NOT_FOUND |}
    | Raise e =>
        if is_DoesNotExist MIssuer e
        then Ok {| resp_data := PNone; resp_status := HTTP_404_NOT_FOUND |}
        else Raise e
    end.
Proof.
  intros w. unfold IssuerBadgeInstanceList.get.
  unfold mbind at 1; unfold M_bind at 1. rewrite get_object_run.
  cbn [model_of slug_of Issuer_model IssuerBadgeInstanceList.queryset]. fold w.
  destruct (queryset_get _ _ _) as [i|e].
  - destruct (permitted _ w request i); run_M; [|done]. fold w.
    unfold listed_of_issuer. by destruct (query_params request !! "recipient").
  - by destruct (is_DoesNotExist MIssuer e).
Qed.

(** C5.  Both listings answer, for a badge class (an issuer) the caller
    has found and is granted, 200 with the representations of instances of
    that badge class (issuer) none of which is revoked; with a [recipient]
    query parameter the issuer listing holds only instances issued to that
    recipient.  Whatever the state, a listing answered 200 is such a list:
    it never holds a revoked instance. *)
Theorem listings_exclude_revoked env request issuerSlug badgeSlug st :
  let w := world st in
  let represent := map (BadgeInstanceSerializer_data env w request) in
  let listing (l : list BadgeInstance) : Result Response :=
    Ok {| resp_data := PList (represent l); resp_status := HTTP_200_OK |} in
  let of_badgeclass := fst (BadgeInstanceList.get env request issuerSlug badgeSlug st) in
  let of_issuer := fst (IssuerBadgeInstanceList.get env request issuerSlug st) in
  let unrevoked a := In a (db_instances w) ∧ bi_revoked a = false in
  let to_recipient a :=
    ∀ recipient, query_params request !! "recipient" = Some recipient →
                 bi_recipient_identifier a = recipient in
  (∀ bc, resolves (badgeclasses_of_issuer_slug w issuerSlug) badgeSlug bc →
         permitted (BadgeInstanceList.permission_classes env) w request bc = true →
         ∃ l, of_badgeclass = listing l
              ∧ Forall (λ a, unrevoked a ∧ bi_badgeclass_id a = bc_id bc) l)
  ∧ (∀ i, resolves (db_issuers w) issuerSlug i →
          permitted (IssuerBadgeInstanceList.permission_classes env) w request i = true →
          ∃ l, of_issuer = listing l
               ∧ Forall (λ a, unrevoked a ∧ bi_issuer_id a = issuer_id i ∧ to_recipient a) l)
  ∧ (status_of of_badgeclass = 200 →
     ∃ l, of_badgeclass = listing l ∧ Forall unrevoked l)
  ∧ (status_of of_issuer = 200 →
     ∃ l, of_issuer = listing l ∧ Forall (λ a, unrevoked a ∧ to_recipient a) l).
Proof.
  intros w represent listing of_badgeclass of_issuer unrevoked to_recipient.
  pose proof (BadgeInstanceList_get_run env request issuerSlug badgeSlug st) as Hbc.
  pose proof (IssuerBadgeInstanceList_get_run env request issuerSlug st) as Hi.
  cbv zeta in Hbc, Hi. fold w of_badgeclass in Hbc. fold w of_issuer in Hi.
  split; [|split; [|split]].
  - intros bc Hr Hp. unfold resolves in Hr. cbn [model_of slug_of BadgeClass_model] in Hr.
    rewrite Hr, Hp in Hbc. eexists. split; [exact Hbc|].
    eapply Forall_impl; [apply listed_of_badgeclass|]. cbv beta. intros a (? & ? & ?).
    by repeat split.
  - intros i Hr Hp. unfold resolves in Hr. cbn [model_of slug_of Issuer_model] in Hr.
    rewrite Hr, Hp in Hi. eexists. split; [exact Hi|].
    eapply Forall_impl; [apply listed_of_issuer_spec|]. cbv beta. intros a (? & ? & ? & ?).
    by repeat split.
  - clear Hi. rewrite Hbc. clear Hbc. destruct (queryset_get MBadgeClass _ _) as [bc|e].
    + destruct (permitted _ w request bc); [|intros [=]]. intros _. eexists. split; [subst listing; reflexivity|].
      eapply Forall_impl; [apply listed_of_badgeclass|]. cbv beta. intros a (? & ? & ?).
      by split.
    + destruct (is_DoesNotExist MBadgeClass e); [intros [=]|].
      destruct e; intros [=].
  - clear Hbc. rewrite Hi. clear Hi. destruct (queryset_get MIssuer _ _) as [i|e].
    + destruct (permitted _ w request i); [|intros [=]]. intros _. eexists. split; [subst listing; reflexivity|].
      eapply Forall_impl; [apply listed_of_issuer_spec|]. cbv beta. intros a (? & ? & ? & ?).
      by repeat split.
    + destruct (is_DoesNotExist MIssuer e); [intros [=]|].
      destruct e; intros [=].
Qed.

Lemma listings_exclude_revoked_witness :
  resolves (db_issuers Demo.w0) "acme" Demo.acme
  ∧ ∃ l, fst (IssuerBadgeInstanceList.get Demo.env Demo.alice_asks_bob "acme" Demo.st0)
         = Ok {| resp_data := PList (map Demo.serialize_instance l);
                 resp_status := HTTP_200_OK |}
         ∧ Forall (λ a, bi_revoked a = false
                        ∧ bi_recipient_identifier a = "bob@example.org") l.
Proof.
  split; [reflexivity|].
  pose proof (listings_exclude_revoked Demo.env Demo.alice_asks_bob "acme" "merit" Demo.st0)
    as (_ & Hissuer & _).
  destruct (Hissuer Demo.acme eq_refl eq_refl) as (l & Hresp & Hl).
  exists l. split; [exact Hresp|].
  eapply Forall_impl; [exact Hl|]. cbv beta.
  intros a ((_ & Hrev) & _ & Hto). split; [exact Hrev|]. apply Hto. reflexivity.
Defined.

(** ** One assertion by its slug *)

Lemma BadgeInstanceDetail_get_run env request issuerSlug badgeSlug assertionSlug st :
  BadgeInstanceDetail.get env request issuerSlug badgeSlug assertionSlug st
  = (match queryset_get MBadgeInstance (λ x, slug_is assertionSlug (bi_slug x))
             (db_instances (world st)) with
     | Ok a => Ok {| resp_data := BadgeInstanceSerializer_data env (world st) request a;
                     resp_status := HTTP_200_OK |}
     | Raise e => if BadgeInstanceDetail.caught e then Ok not_found else Raise e
     end,
     appended st [DbRead MBadgeInstance]).
Proof.
  unfold BadgeInstanceDetail.get, try_except_else. rewrite objects_get_run.
  cbn [model_of slug_of BadgeInstance_model BadgeInstanceDetail.queryset].
  destruct (queryset_get _ _ _) as [a|e]; [done|].
  by destruct (BadgeInstanceDetail.caught e).
Qed.

(** C9.  The GET of one assertion answers 200 with the representation of
    the instance its slug names, whether the instance is revoked or not:
    a revoked instance is shown although a [revoked=False] filter, as the
    listings apply, would not keep it.  Nothing is changed. *)
Theorem single_assertion_shown_even_if_revoked env request issuerSlug badgeSlug
    assertionSlug st a :
  resolves (db_instances (world st)) assertionSlug a →
  let out := BadgeInstanceDetail.get env request issuerSlug badgeSlug assertionSlug st in
  fst out = Ok {| resp_data := BadgeInstanceSerializer_data env (world st) request a;
                  resp_status := HTTP_200_OK |}
  ∧ status_of (fst out) = 200
  ∧ world (snd out) = world st
  ∧ (bi_revoked a = true →
     fst out = Ok {| resp_data := BadgeInstanceSerializer_data env (world st) request a;
                     resp_status := HTTP_200_OK |}
     ∧ ¬ In a (List.filter not_revoked (db_instances (world st)))).
Proof.
  intros Hr out. subst out. rewrite BadgeInstanceDetail_get_run.
  unfold resolves in Hr. cbn [model_of slug_of BadgeInstance_model] in Hr. rewrite Hr.
  repeat split; try done.
  intros Hin. apply filter_In in Hin as [_ Hnr]. apply not_revoked_true in Hnr. congruence.
Qed.

Lemma single_assertion_shown_even_if_revoked_witness :
  resolves (db_instances Demo.w0) "def456" Demo.def456
  ∧ bi_revoked Demo.def456 = true
  ∧ fst (BadgeInstanceDetail.get Demo.env Demo.alice_plain "acme" "merit" "def456" Demo.st0)
    = Ok {| resp_data := Demo.serialize_instance Demo.def456; resp_status := HTTP_200_OK |}.
Proof.
  split; [reflexivity|]. split; [reflexivity|].
  exact (proj1 (single_assertion_shown_even_if_revoked Demo.env Demo.alice_plain
                  "acme" "merit" "def456" Demo.st0 Demo.def456 eq_refl)).
Defined.

(** C10.  The GET of one assertion is keyed by [assertionSlug] alone: with
    the same request, state and [assertionSlug], any two [issuerSlug] and
    [badgeSlug] path values give the same outcome; the handler makes one
    query for the instance and no object permission check, and its
    outcome is the same under any permission classes. *)
Theorem single_assertion_keyed_by_slug_only env request issuerSlug1 badgeSlug1
    issuerSlug2 badgeSlug2 assertionSlug st :
  BadgeInstanceDetail.get env request issuerSlug1 badgeSlug1 assertionSlug st
  = BadgeInstanceDetail.get env request issuerSlug2 badgeSlug2 assertionSlug st
  ∧ trace (snd (BadgeInstanceDetail.get env request issuerSlug1 badgeSlug1 assertionSlug st))
    = (trace st ++ [DbRead MBadgeInstance])%list
  ∧ (∀ a, resolves (db_instances (world st)) assertionSlug a →
          status_of (fst (BadgeInstanceDetail.get env request issuerSlug1 badgeSlug1
                            assertionSlug st)) = 200)
  ∧ (∀ env', BadgeInstanceSerializer_data env' = BadgeInstanceSerializer_data env →
             BadgeInstanceDetail.get env' request issuerSlug1 badgeSlug1 assertionSlug st
             = BadgeInstanceDetail.get env request issuerSlug1 badgeSlug1 assertionSlug st).
Proof.
  rewrite !BadgeInstanceDetail_get_run. repeat split.
  - intros a Hr. unfold resolves in Hr. cbn [model_of slug_of BadgeInstance_model] in Hr.
    cbn [fst]. by rewrite Hr.
  - intros env' Hser. rewrite !BadgeInstanceDetail_get_run. by rewrite Hser.
Qed.

Lemma single_assertion_keyed_by_slug_only_witness :
  BadgeInstanceDetail.get Demo.env Demo.mallory_plain "acme" "merit" "abc123" Demo.st0
  = BadgeInstanceDetail.get Demo.env Demo.mallory_plain "elsewhere" "other" "abc123" Demo.st0
  ∧ permitted (BadgeInstanceDetail.permission_classes Demo.env) Demo.w0
      Demo.mallory_plain Demo.abc123 = false
  ∧ status_of (fst (BadgeInstanceDetail.get Demo.env Demo.mallory_plain "acme" "merit"
                      "abc123" Demo.st0)) = 200
  ∧ BadgeInstanceDetail.get Demo.locked_env Demo.mallory_plain "acme" "merit" "abc123"
      Demo.st0
    = BadgeInstanceDetail.get Demo.env Demo.mallory_plain "acme" "merit" "abc123" Demo.st0.
Proof.
  pose proof (single_assertion_keyed_by_slug_only Demo.env Demo.mallory_plain
                "acme" "merit" "elsewhere" "other" "abc123" Demo.st0)
    as (Hsame & _ & Hshown & Hperm).
  split; [exact Hsame|]. split; [reflexivity|].
  split; [exact (Hshown Demo.abc123 eq_refl)|].
  apply Hperm. reflexivity.
Defined.

(** * Further properties of the handlers *)

(** ** Reads change nothing *)

Lemma get_list_run `{DjangoModel A} perms request slug (queryset : World → list A) st :
  get_list perms request slug queryset st
  = (Ok (match List.filter (λ x, slug_is slug (slug_of x)) (queryset (world st)) with
         | [] => []
         | first :: rest =>
             if permitted perms (world st) request first then first :: rest else []
         end),
     match List.filter (λ x, slug_is slug (slug_of x)) (queryset (world st)) with
     | [] => appended st [DbRead (model_of (A:=A))]
     | _ :: _ => appended st [DbRead (model_of (A:=A)); ObjectPermission (model_of (A:=A))]
     end).
Proof.
  unfold get_list. run_M.
  destruct (List.filter _ _) as [|first rest]; [done|].
  unfold try_except_else. rewrite check_object_permissions_run. cbn [world].
  destruct (permitted perms (world st) request first);
    unfold appended; cbn; by rewrite <- ?app_assoc.
Qed.

Lemma BadgeClassList_get_run env IsEditor request issuerSlug st :
  let w := world st in
  let out := BadgeClassList.get env IsEditor request issuerSlug st in
  fst out
  = Ok (match List.filter (λ x, slug_is issuerSlug (issuer_slug x)) (db_issuers w) with
        | [] => {| resp_data := PStr ("Issuer " +:+ issuerSlug
                                      +:+ " not found or inadequate permissions.");
                   resp_status := HTTP_404_NOT_FOUND |}
        | first :: _ =>
            if permitted (BadgeClassList.permission_classes env IsEditor) w request first
            then {| resp_data := PList (map (BadgeClassSerializerV1_data env w request)
                                          (badgeclasses_of_issuer w first));
                    resp_status := HTTP_200_OK |}
            else {| resp_data := PStr ("Issuer " +:+ issuerSlug
                                       +:+ " not found or inadequate permissions.");
                    resp_status := HTTP_404_NOT_FOUND |}
        end)
  ∧ world (snd out) = w ∧ audit (snd out) = audit st.
Proof.
  intros w out. subst w out. unfold BadgeClassList.get.
  unfold mbind, M_bind. rewrite !get_list_run.
  cbn [model_of slug_of Issuer_model BadgeClassList.queryset].
  destruct (List.filter _ _) as [|first rest]; [done|].
  destruct (permitted _ (world st) request first); [|done].
  run_M. by destruct (badgeclasses_of_issuer (world st) first).
Qed.

Lemma BadgeClassDetail_get_frame env request issuerSlug badgeSlug st :
  let out := BadgeClassDetail.get env request issuerSlug badgeSlug st in
  world (snd out) = world st ∧ audit (snd out) = audit st.
Proof.
  cbv zeta. unfold BadgeClassDetail.get, try_except_else.
  rewrite BadgeClassDetail_lookup_run.
  destruct (queryset_get _ _ _) as [bc|e].
  - by destruct (permitted _ _ _ _).
  - by destruct (BadgeClassDetail.caught e).
Qed.

Lemma listing_audit_frame env request issuerSlug badgeSlug st :
  audit (snd (BadgeInstanceList.get env request issuerSlug badgeSlug st)) = audit st
  ∧ audit (snd (IssuerBadgeInstanceList.get env request issuerSlug st)) = audit st.
Proof.
  unfold BadgeInstanceList.get, IssuerBadgeInstanceList.get. split.
  - unfold mbind at 1; unfold M_bind at 1.
    pose proof (get_object_frame (BadgeInstanceList.permission_classes env) request
                  badgeSlug (λ w, badgeclasses_of_issuer_slug w issuerSlug) st) as [_ Ha].
    destruct (get_object _ _ _ _ st) as [[[bc|]|e] st1]; cbn [snd] in Ha;
      run_M; [|done..].
    by destruct (negb _).
  - unfold mbind at 1; unfold M_bind at 1.
    pose proof (get_object_frame (IssuerBadgeInstanceList.permission_classes env) request
                  issuerSlug IssuerBadgeInstanceList.queryset st) as [_ Ha].
    by destruct (get_object _ _ _ _ st) as [[[i|]|e] st1]; cbn [snd] in Ha; run_M.
Qed.

(** X1.  The five GET handlers are reads: whatever the request and the
    state, and whatever they answer, they leave every table, the storage
    and the audit log as they were. *)
Theorem gets_change_nothing env IsEditor request issuerSlug badgeSlug assertionSlug st :
  Forall (λ handler : M Response,
            world (snd (handler st)) = world st ∧ audit (snd (handler st)) = audit st)
         [BadgeClassList.get env IsEditor request issuerSlug;
          BadgeClassDetail.get env request issuerSlug badgeSlug;
          BadgeInstanceList.get env request issuerSlug badgeSlug;
          IssuerBadgeInstanceList.get env request issuerSlug;
          BadgeInstanceDetail.get env request issuerSlug badgeSlug assertionSlug].
Proof.
  repeat rewrite Forall_cons. rewrite Forall_nil.
  destruct (BadgeClassList_get_run env IsEditor request issuerSlug st) as (_ & ? & ?).
  destruct (BadgeClassDetail_get_frame env request issuerSlug badgeSlug st) as [? ?].
  destruct (listing_frame env request issuerSlug badgeSlug st) as (? & ? & Hone).
  destruct (listing_audit_frame env request issuerSlug badgeSlug st) as [? ?].
  rewrite BadgeInstanceDetail_get_run.
  repeat split; try done.
Qed.

(** ** The badge classes of an issuer *)

(** X2.  [BadgeClassList.get] on an issuer the caller has found and is
    granted answers 200 with the representations, in table order, of all
    the badge classes of that issuer and of no other (the empty list when
    it has none); an issuer that is missing and an issuer that is denied
    are answered with the same 404 text. *)
Theorem issuer_badgeclasses_listed env IsEditor request issuerSlug st :
  let w := world st in
  let answer := fst (BadgeClassList.get env IsEditor request issuerSlug st) in
  let refused : Response :=
    {| resp_data := PStr ("Issuer " +:+ issuerSlug +:+ " not found or inadequate permissions.");
       resp_status := HTTP_404_NOT_FOUND |} in
  (∀ i, resolves (db_issuers w) issuerSlug i →
        permitted (BadgeClassList.permission_classes env IsEditor) w request i = true →
        answer = Ok {| resp_data := PList (map (BadgeClassSerializerV1_data env w request)
                                             (badgeclasses_of_issuer w i));
                       resp_status := HTTP_200_OK |}
        ∧ (∀ bc, In bc (badgeclasses_of_issuer w i)
                 ↔ In bc (db_badgeclasses w) ∧ bc_issuer_id bc = issuer_id i)
        ∧ ((∀ bc, In bc (db_badgeclasses w) → bc_issuer_id bc ≠ issuer_id i) →
           answer = Ok {| resp_data := PList []; resp_status := HTTP_200_OK |}))
  ∧ (missing (db_issuers w) issuerSlug → answer = Ok refused)
  ∧ (∀ i, resolves (db_issuers w) issuerSlug i →
          permitted (BadgeClassList.permission_classes env IsEditor) w request i = false →
          answer = Ok refused).
Proof.
  intros w answer refused.
  destruct (BadgeClassList_get_run env IsEditor request issuerSlug st) as (Hrun & _).
  fold w answer in Hrun.
  assert (∀ i bc, In bc (badgeclasses_of_issuer w i)
                  ↔ In bc (db_badgeclasses w) ∧ bc_issuer_id bc = issuer_id i) as Hmem.
  { intros i bc. unfold badgeclasses_of_issuer. rewrite filter_In.
    by rewrite Z.eqb_eq. }
  split; [|split].
  - intros i Hr Hp. apply queryset_get_only in Hr.
    cbn [slug_of Issuer_model] in Hr. rewrite Hr, Hp in Hrun.
    split; [done|]. split; [apply Hmem|].
    intros Hnone. rewrite Hrun.
    destruct (badgeclasses_of_issuer w i) as [|bc l] eqn:Hl; [done|].
    exfalso. assert (In bc (badgeclasses_of_issuer w i)) as Hin by (rewrite Hl; by left).
    apply Hmem in Hin as [Hin Hid]. by apply (Hnone bc).
  - intros Hm. unfold missing, queryset_get in Hm. cbn [slug_of Issuer_model] in Hm.
    destruct (List.filter _ _) as [|x [|y l]]; [done|done|done].
  - intros i Hr Hp. apply queryset_get_only in Hr.
    cbn [slug_of Issuer_model] in Hr. by rewrite Hr, Hp in Hrun.
Qed.

Lemma issuer_badgeclasses_listed_witness :
  resolves (db_issuers Demo.w0) "acme" Demo.acme
  ∧ fst (BadgeClassList.get Demo.env (Demo.is_user "alice") Demo.alice_plain "acme" Demo.st0)
    = Ok {| resp_data := PList [Demo.serialize_badgeclass Demo.excellence;
                                Demo.serialize_badgeclass Demo.merit];
            resp_status := HTTP_200_OK |}.
Proof.
  split; [reflexivity|].
  pose proof (issuer_badgeclasses_listed Demo.env (Demo.is_user "alice") Demo.alice_plain
                "acme" Demo.st0) as (Hfound & _).
  destruct (Hfound Demo.acme eq_refl eq_refl) as (Hresp & _).
  exact Hresp.
Defined.

(** ** More on updating a badge class *)

(** The whole outcome of [put] on a badge class found and granted. *)
Lemma BadgeClassDetail_put_outcome env request issuerSlug badgeSlug st bc :
  resolves (db_badgeclasses (world st)) badgeSlug bc →
  permitted (BadgeClassDetail.permission_classes env) (world st) request bc = true →
  let w := world st in
  let out := BadgeClassDetail.put env request issuerSlug badgeSlug st in
  audit (snd out) = audit st
  ∧ match BadgeClassDetail.cleaned_data_of env request with
    | Ok cleaned =>
        match BadgeClassSerializerV1_errors env w request bc cleaned with
        | None =>
            let saved := BadgeClassSerializerV1_update bc cleaned in
            let w' := with_badgeclasses w (update_row bc_id saved (db_badgeclasses w)) in
            fst out = Ok {| resp_data := BadgeClassSerializerV1_data env w' request saved;
                            resp_status := HTTP_200_OK |}
            ∧ world (snd out) = w'
        | Some detail => fst out = Raise (ValidationError detail) ∧ world (snd out) = w
        end
    | Raise e => fst out = Raise e ∧ world (snd out) = w
    end.
Proof.
  intros Hr Hp w out. subst w out.
  unfold BadgeClassDetail.put, try_except_else.
  rewrite (BadgeClassDetail_lookup_found _ _ _ _ _ Hr Hp).
  destruct (BadgeClassDetail.cleaned_data_of env request) as [cleaned|e]; [|done].
  unfold BadgeClass_save. run_M.
  by destruct (BadgeClassSerializerV1_errors env _ request bc cleaned).
Qed.

(** X3.  An update whose data the serializer finds invalid raises the
    validation error, answered 400, and stores nothing: tables, storage and
    audit log are as before. *)
Theorem put_invalid_stores_nothing env request issuerSlug badgeSlug st bc cleaned detail :
  resolves (db_badgeclasses (world st)) badgeSlug bc →
  permitted (BadgeClassDetail.permission_classes env) (world st) request bc = true →
  BadgeClassDetail.cleaned_data_of env request = Ok cleaned →
  BadgeClassSerializerV1_errors env (world st) request bc cleaned = Some detail →
  let out := BadgeClassDetail.put env request issuerSlug badgeSlug st in
  fst out = Raise (ValidationError detail)
  ∧ status_of (fst out) = 400
  ∧ world (snd out) = world st
  ∧ audit (snd out) = audit st.
Proof.
  intros Hr Hp Hclean Herr out.
  destruct (BadgeClassDetail_put_outcome env request issuerSlug badgeSlug st bc Hr Hp)
    as (Ha & Hout).
  fold out in Ha, Hout. rewrite Hclean, Herr in Hout. destruct Hout as [Hres Hw].
  by rewrite Hres.
Qed.

Lemma put_invalid_stores_nothing_witness :
  BadgeClassDetail.cleaned_data_of Demo.env Scenario.alice_bad_name
  = Ok (data Scenario.alice_bad_name)
  ∧ fst (BadgeClassDetail.put Demo.env Scenario.alice_bad_name "acme" "excellence" Demo.st0)
    = Raise (ValidationError "name: Not a valid string.")
  ∧ world (snd (BadgeClassDetail.put Demo.env Scenario.alice_bad_name "acme" "excellence"
                  Demo.st0)) = Demo.w0.
Proof.
  split; [reflexivity|].
  pose proof (put_invalid_stores_nothing Demo.env Scenario.alice_bad_name "acme"
                "excellence" Demo.st0 Demo.excellence (data Scenario.alice_bad_name)
                "name: Not a valid string." eq_refl eq_refl eq_refl eq_refl)
    as (Hres & _ & Hw & _).
  split; [exact Hres|exact Hw].
Defined.

(** X4.  An update whose payload has no "image" key never reaches the
    serializer: unless [urlparse] finds the scheme "data" in [None], the
    handler raises, either what [urlparse] raises on [None] or the
    [KeyError] of [cleaned_data.pop('image')], and nothing is stored. *)
Theorem put_without_image_fails env request issuerSlug badgeSlug st bc :
  resolves (db_badgeclasses (world st)) badgeSlug bc →
  permitted (BadgeClassDetail.permission_classes env) (world st) request bc = true →
  data request !! "image" = None →
  urlparse_scheme env PNone ≠ Ok "data" →
  let out := BadgeClassDetail.put env request issuerSlug badgeSlug st in
  ∃ e, fst out = Raise e
       ∧ (urlparse_scheme env PNone = Raise e ∨ e = KeyError "image")
       ∧ world (snd out) = world st
       ∧ audit (snd out) = audit st.
Proof.
  intros Hr Hp Himg Hscheme out.
  destruct (BadgeClassDetail_put_outcome env request issuerSlug badgeSlug st bc Hr Hp)
    as (Ha & Hout).
  fold out in Ha, Hout. rewrite cleaned_data_of_run in Hout. cbv zeta in Hout.
  assert (dict_get (data request) "image" = PNone) as Hget
    by (unfold dict_get; by rewrite Himg).
  rewrite Hget, Himg in Hout. cbn [isinstance_UploadedFile] in Hout.
  destruct (urlparse_scheme env PNone) as [scheme|e] eqn:Hu.
  - destruct (String.eqb scheme "data") eqn:Es.
    + apply String.eqb_eq in Es. by subst scheme.
    + destruct Hout as [Hres Hw]. exists (KeyError "image"). rewrite Hres.
      repeat split; auto.
  - destruct Hout as [Hres Hw]. exists e. rewrite Hres. repeat split; auto.
Qed.

Lemma put_without_image_fails_witness :
  data Scenario.alice_renames !! "image" = None
  ∧ fst (BadgeClassDetail.put Demo.env Scenario.alice_renames "acme" "excellence" Demo.st0)
    = Raise (LibraryError "AttributeError")
  ∧ world (snd (BadgeClassDetail.put Demo.env Scenario.alice_renames "acme" "excellence"
                  Demo.st0)) = Demo.w0.
Proof.
  split; [reflexivity|].
  assert (urlparse_scheme Demo.env PNone ≠ Ok "data") as Hscheme by discriminate.
  destruct (put_without_image_fails Demo.env Scenario.alice_renames "acme" "excellence"
              Demo.st0 Demo.excellence eq_refl eq_refl eq_refl Hscheme)
    as (e & Hres & [Hu|He] & Hw & _).
  - split; [|exact Hw]. rewrite Hres. f_equal. by injection Hu.
  - exfalso. rewrite He in Hres. discriminate Hres.
Defined.

(** After [obj.save()] of a row whose primary key is its own, the slug
    that named the fetched row names the saved one. *)
Lemma update_row_resolves_saved `{DjangoModel A} (pk : A → Z) rows slug old obj :
  resolves rows slug old →
  pk obj = pk old →
  slug_of obj = slug_of old →
  pk_unique pk rows old →
  resolves (update_row pk obj rows) slug obj.
Proof.
  intros Hold Hpk Hslug Huniq.
  pose proof (queryset_get_only _ _ _ _ Hold) as Honly.
  destruct (resolves_slug _ _ _ Hold) as [Hs _].
  assert (List.filter (λ x, slug_is slug (slug_of x)) (update_row pk obj rows)
          = map (λ x, if Z.eqb (pk x) (pk obj) then obj else x)
              (List.filter (λ x, slug_is slug (slug_of x)) rows)) as Hcomm.
  { unfold update_row. clear Honly Hold. induction rows as [|x rows IH]; [done|].
    cbn [map List.filter].
    assert (pk_unique pk rows old) as Hrest by (intros y Hy; apply Huniq; by right).
    specialize (IH Hrest).
    destruct (Z.eqb_spec (pk x) (pk obj)) as [Heq|Hne].
    - assert (x = old) as -> by (apply Huniq; [by left|congruence]).
      assert (slug_is slug slug = true) as Hss by (unfold slug_is; apply String.eqb_refl).
      rewrite Hslug, Hs, !Hss. cbn [map]. rewrite Heq, Z.eqb_refl. by rewrite IH.
    - destruct (slug_is slug (slug_of x)); [|done].
      cbn [map]. destruct (Z.eqb_spec (pk x) (pk obj)); [done|]. by rewrite IH. }
  unfold resolves, queryset_get. rewrite Hcomm, Honly. cbn [map].
  by rewrite <- Hpk, Z.eqb_refl.
Qed.



(** ** After a badge class is deleted *)

Lemma delete_row_missing `{DjangoModel A} (pk : A → Z) (rows : list A) slug obj :
  resolves rows slug obj → missing (delete_row pk obj rows) slug.
Proof.
  intros Hr. pose proof (queryset_get_only _ _ _ _ Hr) as Honly.
  assert (List.filter (λ x, slug_is slug (slug_of x)) (delete_row pk obj rows) = []) as Hnone.
  { unfold delete_row. clear Hr. revert Honly. induction rows as [|x rows IH]; [done|].
    cbn [List.filter]. destruct (slug_is slug (slug_of x)) eqn:Hs.
    - intros [= -> Hrest]. rewrite Z.eqb_refl. cbn [negb].
      clear IH. induction rows as [|y rows IH]; [done|].
      cbn [List.filter] in *. destruct (slug_is slug (slug_of y)) eqn:Hy; [done|].
      destruct (negb _); cbn [List.filter]; rewrite ?Hy; by apply IH.
    - intros Hrest. destruct (negb _); cbn [List.filter]; rewrite ?Hs; by apply IH. }
  unfold missing, queryset_get. by rewrite Hnone.
Qed.

(** X6.  Once a badge class has been deleted its slug names nothing:
    to any caller, the GET and the PUT of that slug answer the 404 text
    and a second DELETE the bare 404. *)
Theorem deleted_badgeclass_is_gone env request issuerSlug badgeSlug st bc :
  resolves (db_badgeclasses (world st)) badgeSlug bc →
  permitted (BadgeClassDetail.permission_classes env) (world st) request bc = true →
  recipient_count env (world st) bc = 0%nat →
  pathway_element_count env (world st) bc = 0%nat →
  cached_completion_elements env (world st) bc = [] →
  let deleted := BadgeClassDetail.delete env request issuerSlug badgeSlug st in
  fst deleted = Ok (badge_deleted badgeSlug)
  ∧ missing (db_badgeclasses (world (snd deleted))) badgeSlug
  ∧ ∀ request' issuerSlug',
      fst (BadgeClassDetail.get env request' issuerSlug' badgeSlug (snd deleted))
      = Ok (badgeclass_not_found badgeSlug)
      ∧ fst (BadgeClassDetail.put env request' issuerSlug' badgeSlug (snd deleted))
        = Ok (badgeclass_not_found badgeSlug)
      ∧ fst (BadgeClassDetail.delete env request' issuerSlug' badgeSlug (snd deleted))
        = Ok not_found.
Proof.
  intros Hr Hp Hrc Hpc Hce deleted.
  destruct (BadgeClassDetail_delete_run env request issuerSlug badgeSlug st bc Hr Hp)
    as (Hres & Hw & _).
  fold deleted in Hres, Hw. rewrite Hrc, Hpc, Hce in Hres, Hw. cbn in Hres, Hw.
  assert (missing (db_badgeclasses (world (snd deleted))) badgeSlug) as Hm.
  { rewrite Hw. cbn [db_badgeclasses with_badgeclasses]. by apply delete_row_missing. }
  split; [done|]. split; [done|]. intros request' issuerSlug'.
  pose proof (BadgeClassDetail_lookup_missing env request' badgeSlug (snd deleted) Hm) as Hl.
  unfold BadgeClassDetail.get, BadgeClassDetail.put, BadgeClassDetail.delete,
    try_except_else.
  by rewrite Hl.
Qed.

Lemma deleted_badgeclass_is_gone_witness :
  resolves (db_badgeclasses Demo.w0) "excellence" Demo.excellence
  ∧ fst (BadgeClassDetail.get Demo.env Demo.alice_plain "acme" "excellence"
           (snd (BadgeClassDetail.delete Demo.env Demo.alice_plain "acme" "excellence"
                   Demo.st0)))
    = Ok (badgeclass_not_found "excellence").
Proof.
  split; [reflexivity|].
  pose proof (deleted_badgeclass_is_gone Demo.env Demo.alice_plain "acme" "excellence"
                Demo.st0 Demo.excellence eq_refl eq_refl eq_refl eq_refl eq_refl)
    as (_ & _ & Hgone).
  exact (proj1 (Hgone Demo.alice_plain "acme")).
Defined.

(** ** More on revoking *)

(** X7.  A revoke, its reason given, of an assertion that is missing and
    of an assertion the caller may not edit are answered alike, with the
    bare 404, and change nothing. *)
Theorem revoke_missing_and_forbidden_alike env request issuerSlug badgeSlug assertionSlug
    st_missing st_denied a :
  is_None (dict_get (data request) "revocation_reason") = false →
  missing (db_instances (world st_missing)) assertionSlug →
  resolves (db_instances (world st_denied)) assertionSlug a →
  permitted (BadgeInstanceDetail.permission_classes env) (world st_denied) request a = false →
  let revoke := BadgeInstanceDetail.delete env request issuerSlug badgeSlug assertionSlug in
  fst (revoke st_missing) = Ok not_found
  ∧ fst (revoke st_denied) = Ok not_found
  ∧ world (snd (revoke st_missing)) = world st_missing
  ∧ audit (snd (revoke st_missing)) = audit st_missing
  ∧ world (snd (revoke st_denied)) = world st_denied
  ∧ audit (snd (revoke st_denied)) = audit st_denied.
Proof.
  intros Hreason Hm Hr Hp revoke. subst revoke.
  unfold BadgeInstanceDetail.delete. rewrite Hreason.
  unfold mbind, M_bind.
  rewrite !(get_object_missing _ request assertionSlug BadgeInstanceDetail.queryset
              st_missing Hm).
  rewrite !(get_object_denied _ request assertionSlug BadgeInstanceDetail.queryset
              st_denied a Hr Hp).
  done.
Qed.

Lemma revoke_missing_and_forbidden_alike_witness :
  fst (BadgeInstanceDetail.delete Demo.env
         (Demo.request_of "mallory" [("revocation_reason", PStr "spite")] [])
         "acme" "merit" "abc123" Demo.st_without_merit)
  = fst (BadgeInstanceDetail.delete Demo.env
           (Demo.request_of "mallory" [("revocation_reason", PStr "spite")] [])
           "acme" "merit" "abc123" Demo.st0).
Proof.
  pose proof (revoke_missing_and_forbidden_alike Demo.env
                (Demo.request_of "mallory" [("revocation_reason", PStr "spite")] [])
                "acme" "merit" "abc123" Demo.st_without_merit Demo.st0 Demo.abc123
                eq_refl eq_refl eq_refl eq_refl) as (-> & -> & _).
  reflexivity.
Defined.

(** What a revoke leaves in the instance table, whether or not the award
    cleanup then raises. *)
Lemma revoke_persisted env request issuerSlug badgeSlug assertionSlug st a :
  resolves (db_instances (world st)) assertionSlug a →
  permitted (BadgeInstanceDetail.permission_classes env) (world st) request a = true →
  is_None (dict_get (data request) "revocation_reason") = false →
  bi_revoked a = false →
  let a' := revoked_form a (dict_get (data request) "revocation_reason") in
  let after := snd (BadgeInstanceDetail.delete env request issuerSlug badgeSlug
                      assertionSlug st) in
  db_instances (world after) = update_row bi_id a' (db_instances (world st))
  ∧ db_badgeclasses (world after) = db_badgeclasses (world st)
  ∧ storage (world after)
    = match bi_image a with
      | Some name => storage (world st) ∖ {[name]}
      | None => storage (world st)
      end.
Proof.
  intros Hr Hp Hreason Hrev a' after. subst after.
  destruct (revoke_run env request issuerSlug badgeSlug assertionSlug st a Hr Hp Hreason Hrev)
    as (st1 & Hw1 & _ & ->).
  fold a'.
  pose proof (badgebook_cleanup_frame a' st1) as (Hinst & Hbc & Hsto & _).
  destruct (BadgeInstanceDetail.badgebook_cleanup a' st1) as [[[]|e] st2];
    cbn [fst snd world] in *; rewrite Hinst, Hbc, Hsto, Hw1; done.
Qed.

Lemma revoke_of_revoked_run env request issuerSlug badgeSlug assertionSlug st a :
  resolves (db_instances (world st)) assertionSlug a →
  permitted (BadgeInstanceDetail.permission_classes env) (world st) request a = true →
  is_None (dict_get (data request) "revocation_reason") = false →
  bi_revoked a = true →
  BadgeInstanceDetail.delete env request issuerSlug badgeSlug assertionSlug st
  = (Ok already_revoked,
     appended st [DbRead MBadgeInstance; ObjectPermission MBadgeInstance]).
Proof.
  intros Hr Hp Hreason Hrev. unfold BadgeInstanceDetail.delete. rewrite Hreason.
  unfold mbind at 1; unfold M_bind at 1.
  rewrite (get_object_found _ request assertionSlug BadgeInstanceDetail.queryset st a Hr Hp).
  by rewrite Hrev.
Qed.

Lemma revoked_form_resolves rows assertionSlug a reason :
  resolves rows assertionSlug a →
  pk_unique bi_id rows a →
  resolves (update_row bi_id (revoked_form a reason) rows) assertionSlug
    (revoked_form a reason).
Proof.
  intros Hr Huniq.
  by apply (update_row_resolves_saved bi_id rows assertionSlug a (revoked_form a reason)).
Qed.

(** X8.  After a revoke has reached the mutation, a further revoke of the
    same assertion, whatever reason it gives, is answered 400 "Assertion is
    already revoked." and changes nothing: the stored reason is the first
    one.  (The row's primary key is its own; the second caller is granted.) *)
Theorem second_revoke_rejected env request request' issuerSlug badgeSlug issuerSlug'
    badgeSlug' assertionSlug st a :
  resolves (db_instances (world st)) assertionSlug a →
  permitted (BadgeInstanceDetail.permission_classes env) (world st) request a = true →
  is_None (dict_get (data request) "revocation_reason") = false →
  bi_revoked a = false →
  pk_unique bi_id (db_instances (world st)) a →
  let a' := revoked_form a (dict_get (data request) "revocation_reason") in
  let first := BadgeInstanceDetail.delete env request issuerSlug badgeSlug assertionSlug st in
  is_None (dict_get (data request') "revocation_reason") = false →
  permitted (BadgeInstanceDetail.permission_classes env) (world (snd first)) request' a'
  = true →
  let second := BadgeInstanceDetail.delete env request' issuerSlug' badgeSlug' assertionSlug
                  (snd first) in
  fst second = Ok already_revoked
  ∧ world (snd second) = world (snd first)
  ∧ audit (snd second) = audit (snd first)
  ∧ resolves (db_instances (world (snd second))) assertionSlug a'.
Proof.
  intros Hr Hp Hreason Hrev Huniq a' first Hreason' Hp' second.
  destruct (revoke_persisted env request issuerSlug badgeSlug assertionSlug st a
              Hr Hp Hreason Hrev) as (Hrows & _).
  fold a' first in Hrows.
  assert (resolves (db_instances (world (snd first))) assertionSlug a') as Hr'.
  { rewrite Hrows. by apply revoked_form_resolves. }
  subst second.
  rewrite (revoke_of_revoked_run env request' issuerSlug' badgeSlug' assertionSlug
             (snd first) a' Hr' Hp' Hreason' eq_refl).
  done.
Qed.

Lemma second_revoke_rejected_witness :
  pk_unique bi_id (db_instances Demo.w0) Demo.abc123
  ∧ fst (BadgeInstanceDetail.delete Demo.env Scenario.alice_revokes_again "acme" "merit"
           "abc123"
           (snd (BadgeInstanceDetail.delete Demo.env Demo.alice_revokes "acme" "merit"
                   "abc123" Demo.st0)))
    = Ok already_revoked
  ∧ resolves
      (db_instances
         (world (snd (BadgeInstanceDetail.delete Demo.env Scenario.alice_revokes_again
                        "acme" "merit" "abc123"
                        (snd (BadgeInstanceDetail.delete Demo.env Demo.alice_revokes
                                "acme" "merit" "abc123" Demo.st0))))))
      "abc123" (revoked_form Demo.abc123 (PStr "policy violation")).
Proof.
  assert (pk_unique bi_id (db_instances Demo.w0) Demo.abc123) as Huniq.
  { intros x [<-|[<-|[]]]; [done|]. intros Hid. vm_compute in Hid. discriminate Hid. }
  split; [exact Huniq|].
  pose proof (second_revoke_rejected Demo.env Demo.alice_revokes
                Scenario.alice_revokes_again "acme" "merit" "acme" "merit" "abc123"
                Demo.st0 Demo.abc123 eq_refl eq_refl eq_refl eq_refl Huniq eq_refl eq_refl)
    as (Hresp & _ & _ & Hkept).
  split; [exact Hresp|exact Hkept].
Defined.

(** X9.  After a revoke has reached the mutation, the GET of the assertion
    by its slug answers 200 with the representation of the revoked form:
    revoked set, the given reason stored, no image. *)
Theorem revoked_assertion_still_shown env request request' issuerSlug badgeSlug issuerSlug'
    badgeSlug' assertionSlug st a :
  resolves (db_instances (world st)) assertionSlug a →
  permitted (BadgeInstanceDetail.permission_classes env) (world st) request a = true →
  is_None (dict_get (data request) "revocation_reason") = false →
  bi_revoked a = false →
  pk_unique bi_id (db_instances (world st)) a →
  let a' := revoked_form a (dict_get (data request) "revocation_reason") in
  let after := snd (BadgeInstanceDetail.delete env request issuerSlug badgeSlug
                      assertionSlug st) in
  fst (BadgeInstanceDetail.get env request' issuerSlug' badgeSlug' assertionSlug after)
  = Ok {| resp_data := BadgeInstanceSerializer_data env (world after) request' a';
          resp_status := HTTP_200_OK |}.
Proof.
  intros Hr Hp Hreason Hrev Huniq a' after.
  destruct (revoke_persisted env request issuerSlug badgeSlug assertionSlug st a
              Hr Hp Hreason Hrev) as (Hrows & _).
  fold a' after in Hrows.
  assert (resolves (db_instances (world after)) assertionSlug a') as Hr'.
  { rewrite Hrows. by apply revoked_form_resolves. }
  rewrite BadgeInstanceDetail_get_run. cbn [fst].
  unfold resolves in Hr'. cbn [model_of slug_of BadgeInstance_model] in Hr'.
  by rewrite Hr'.
Qed.

Lemma revoked_assertion_still_shown_witness :
  pk_unique bi_id (db_instances Demo.w0) Demo.abc123
  ∧ fst (BadgeInstanceDetail.get Demo.env Demo.mallory_plain "acme" "merit" "abc123"
           (snd (BadgeInstanceDetail.delete Demo.env Demo.alice_revokes "acme" "merit"
                   "abc123" Demo.st0)))
    = Ok {| resp_data :=
              Demo.serialize_instance (revoked_form Demo.abc123 (PStr "policy violation"));
            resp_status := HTTP_200_OK |}.
Proof.
  assert (pk_unique bi_id (db_instances Demo.w0) Demo.abc123) as Huniq.
  { intros x [<-|[<-|[]]]; [done|]. intros Hid. vm_compute in Hid. discriminate Hid. }
  split; [exact Huniq|].
  exact (revoked_assertion_still_shown Demo.env Demo.alice_revokes Demo.mallory_plain
           "acme" "merit" "acme" "merit" "abc123" Demo.st0 Demo.abc123
           eq_refl eq_refl eq_refl eq_refl Huniq).
Defined.

Lemma update_row_In {A} (pk : A → Z) obj rows x :
  In x (update_row pk obj rows) ↔ (x = obj ∧ ∃ y, In y rows ∧ pk y = pk obj)
                                  ∨ (In x rows ∧ pk x ≠ pk obj).
Proof.
  unfold update_row. rewrite in_map_iff. split.
  - intros (y & Hy & Hin). destruct (Z.eqb_spec (pk y) (pk obj)).
    + left. split; [done|]. by exists y.
    + right. by subst x.
  - intros [(-> & y & Hin & Hpk)|(Hin & Hne)].
    + exists y. split; [|done]. by rewrite Hpk, Z.eqb_refl.
    + exists x. split; [|done]. by destruct (Z.eqb_spec (pk x) (pk obj)).
Qed.

(** X10.  After a revoke has reached the mutation, no listing answered to
    any caller holds a row with the id of the revoked assertion: both
    listings, when they answer 200, show unrevoked rows of other ids only. *)
Theorem revoked_assertion_leaves_listings env request request' issuerSlug badgeSlug
    issuerSlug' badgeSlug' assertionSlug st a :
  resolves (db_instances (world st)) assertionSlug a →
  permitted (BadgeInstanceDetail.permission_classes env) (world st) request a = true →
  is_None (dict_get (data request) "revocation_reason") = false →
  bi_revoked a = false →
  let after := snd (BadgeInstanceDetail.delete env request issuerSlug badgeSlug
                      assertionSlug st) in
  let listing (l : list BadgeInstance) : Result Response :=
    Ok {| resp_data := PList (map (BadgeInstanceSerializer_data env (world after) request') l);
          resp_status := HTTP_200_OK |} in
  let of_badgeclass := fst (BadgeInstanceList.get env request' issuerSlug' badgeSlug' after) in
  let of_issuer := fst (IssuerBadgeInstanceList.get env request' issuerSlug' after) in
  (status_of of_badgeclass = 200 →
   ∃ l, of_badgeclass = listing l
        ∧ Forall (λ x, In x (db_instances (world after)) ∧ bi_id x ≠ bi_id a
                       ∧ bi_revoked x = false) l)
  ∧ (status_of of_issuer = 200 →
     ∃ l, of_issuer = listing l
          ∧ Forall (λ x, In x (db_instances (world after)) ∧ bi_id x ≠ bi_id a
                         ∧ bi_revoked x = false) l).
Proof.
  intros Hr Hp Hreason Hrev after listing of_badgeclass of_issuer.
  destruct (revoke_persisted env request issuerSlug badgeSlug assertionSlug st a
              Hr Hp Hreason Hrev) as (Hrows & _).
  fold after in Hrows.
  assert (∀ x, In x (db_instances (world after)) → bi_revoked x = false →
               bi_id x ≠ bi_id a) as Hother.
  { intros x Hx Hx_rev. rewrite Hrows in Hx. apply update_row_In in Hx.
    destruct Hx as [(-> & _)|(_ & Hne)]; [done|exact Hne]. }
  pose proof (BadgeInstanceList_get_run env request' issuerSlug' badgeSlug' after) as Hbc.
  pose proof (IssuerBadgeInstanceList_get_run env request' issuerSlug' after) as Hi.
  cbv zeta in Hbc, Hi. fold of_badgeclass in Hbc. fold of_issuer in Hi.
  split.
  - clear Hi. rewrite Hbc. clear Hbc. destruct (queryset_get MBadgeClass _ _) as [bc|e].
    + destruct (permitted _ _ request' bc); [|intros [=]]. intros _. eexists.
      split; [subst listing; reflexivity|].
      eapply Forall_impl; [apply listed_of_badgeclass|]. cbv beta. intros x (? & ? & ?).
      auto.
    + destruct (is_DoesNotExist MBadgeClass e); [intros [=]|].
      destruct e; intros [=].
  - clear Hbc. rewrite Hi. clear Hi. destruct (queryset_get MIssuer _ _) as [i|e].
    + destruct (permitted _ _ request' i); [|intros [=]]. intros _. eexists.
      split; [subst listing; reflexivity|].
      eapply Forall_impl; [apply listed_of_issuer_spec|]. cbv beta.
      intros x (? & ? & ? & ?). auto.
    + destruct (is_DoesNotExist MIssuer e); [intros [=]|].
      destruct e; intros [=].
Qed.

Lemma revoked_assertion_leaves_listings_witness :
  ∃ l, fst (BadgeInstanceList.get Demo.env Demo.alice_plain "acme" "merit"
              (snd (BadgeInstanceDetail.delete Demo.env Demo.alice_revokes "acme" "merit"
                      "abc123" Demo.st0)))
       = Ok {| resp_data := PList (map Demo.serialize_instance l);
               resp_status := HTTP_200_OK |}
       ∧ Forall (λ x, bi_id x ≠ bi_id Demo.abc123) l.
Proof.
  pose proof (revoked_assertion_leaves_listings Demo.env Demo.alice_revokes Demo.alice_plain
                "acme" "merit" "acme" "merit" "abc123" Demo.st0 Demo.abc123
                eq_refl eq_refl eq_refl eq_refl) as (Hbc & _).
  destruct (Hbc eq_refl) as (l & Hresp & Hl).
  exists l. split; [exact Hresp|].
  eapply Forall_impl; [exact Hl|]. cbv beta. by intros x (_ & ? & _).
Defined.

(** X11.  A revoke that reaches the mutation writes one instance: the table
    keeps its length, every row of another id stays as it was, every row
    is the revoked form or an old row, the badge classes are untouched,
    and the storage loses at most the baked image of the assertion. *)
Theorem revoke_touches_one_row env request issuerSlug badgeSlug assertionSlug st a :
  resolves (db_instances (world st)) assertionSlug a →
  permitted (BadgeInstanceDetail.permission_classes env) (world st) request a = true →
  is_None (dict_get (data request) "revocation_reason") = false →
  bi_revoked a = false →
  let w := world st in
  let a' := revoked_form a (dict_get (data request) "revocation_reason") in
  let w' := world (snd (BadgeInstanceDetail.delete env request issuerSlug badgeSlug
                          assertionSlug st)) in
  length (db_instances w') = length (db_instances w)
  ∧ (∀ x, In x (db_instances w) → bi_id x ≠ bi_id a → In x (db_instances w'))
  ∧ (∀ x, In x (db_instances w') → x = a' ∨ (In x (db_instances w) ∧ bi_id x ≠ bi_id a))
  ∧ db_badgeclasses w' = db_badgeclasses w
  ∧ (∀ name, name ∈ storage w → bi_image a ≠ Some name → name ∈ storage w')
  ∧ (∀ name, name ∈ storage w' → name ∈ storage w).
Proof.
  intros Hr Hp Hreason Hrev w a' w'.
  destruct (revoke_persisted env request issuerSlug badgeSlug assertionSlug st a
              Hr Hp Hreason Hrev) as (Hrows & Hbc & Hsto).
  fold w a' w' in Hrows, Hbc, Hsto.
  split; [|split; [|split; [|split; [|split]]]].
  - rewrite Hrows. unfold update_row. by rewrite length_map.
  - intros x Hx Hne. rewrite Hrows. apply update_row_In. right. by split.
  - intros x Hx. rewrite Hrows in Hx. apply update_row_In in Hx.
    destruct Hx as [(-> & _)|Hold]; [by left|by right].
  - exact Hbc.
  - intros name Hname Himg. rewrite Hsto. destruct (bi_image a) as [name'|]; [|done].
    apply elem_of_difference. split; [done|].
    rewrite elem_of_singleton. congruence.
  - intros name. rewrite Hsto. destruct (bi_image a) as [name'|]; [|done].
    rewrite elem_of_difference. by intros [? _].
Qed.

Lemma revoke_touches_one_row_witness :
  resolves (db_instances Demo.w0) "abc123" Demo.abc123
  ∧ In Demo.def456
       (db_instances (world (snd (BadgeInstanceDetail.delete Demo.env Demo.alice_revokes
                                    "acme" "merit" "abc123" Demo.st0)))).
Proof.
  split; [reflexivity|].
  pose proof (revoke_touches_one_row Demo.env Demo.alice_revokes "acme" "merit" "abc123"
                Demo.st0 Demo.abc123 eq_refl eq_refl eq_refl eq_refl) as (_ & Hkept & _).
  apply Hkept; [right; by left|discriminate].
Defined.

(** X12.  Where the badgebook app is installed and importable and two or
    more of its awards reference the assertion, the lookup of line 476
    raises [MultipleObjectsReturned], which nothing catches: the revoke
    ends in a 500 although the instance is already saved revoked, and no
    revocation event is logged. *)
Theorem revoke_with_ambiguous_awards env request issuerSlug badgeSlug assertionSlug st a :
  resolves (db_instances (world st)) assertionSlug a →
  permitted (BadgeInstanceDetail.permission_classes env) (world st) request a = true →
  is_None (dict_get (data request) "revocation_reason") = false →
  bi_revoked a = false →
  existsb (String.eqb "badgebook") (installed_apps (world st)) = true →
  badgebook_importable (world st) = true →
  (2 ≤ length (awards_of (world st) a))%nat →
  let a' := revoked_form a (dict_get (data request) "revocation_reason") in
  let out := BadgeInstanceDetail.delete env request issuerSlug badgeSlug assertionSlug st in
  fst out = Raise (MultipleObjectsReturned MBadgeObjectiveAward)
  ∧ status_of (fst out) = 500
  ∧ In a' (db_instances (world (snd out)))
  ∧ audit (snd out) = audit st.
Proof.
  intros Hr Hp Hreason Hrev Hinst Himp Hmany a' out.
  destruct (revoke_completed env request issuerSlug badgeSlug assertionSlug st a
              Hr Hp Hreason Hrev) as ((Hrows & _) & Hraise & _).
  fold a' out in Hrows, Hraise. rewrite Hinst, Himp in Hraise.
  destruct (Hraise eq_refl Hmany) as [Hres Ha].
  split; [done|]. split; [by rewrite Hres|]. split; [|done].
  rewrite Hrows. apply update_row_In. left. split; [done|].
  exists a. split; [by apply (resolves_slug _ _ _ Hr)|done].
Qed.

Lemma revoke_with_ambiguous_awards_witness :
  (2 ≤ length (awards_of (world Scenario.st_two_awards) Demo.abc123))%nat
  ∧ fst (BadgeInstanceDetail.delete Demo.env Demo.alice_revokes "acme" "merit" "abc123"
           Scenario.st_two_awards)
    = Raise (MultipleObjectsReturned MBadgeObjectiveAward).
Proof.
  assert (2 ≤ length (awards_of (world Scenario.st_two_awards) Demo.abc123))%nat as Hmany
    by (vm_compute; lia).
  split; [exact Hmany|].
  exact (proj1 (revoke_with_ambiguous_awards Demo.env Demo.alice_revokes "acme" "merit"
                  "abc123" Scenario.st_two_awards Demo.abc123
                  eq_refl eq_refl eq_refl eq_refl eq_refl eq_refl Hmany)).
Defined.

(** ** What the listings hold *)

(** X13.  For a badge class (an issuer) the caller has found and is
    granted, the listing holds every unrevoked instance of it and nothing
    else: a row is listed if and only if it is in the table, belongs to the
    badge class (issuer), is not revoked and, where a [recipient] is asked
    for, was issued to that recipient.  With no such row the answer is 200
    with the empty list, not a 404. *)
Theorem listings_are_complete env request issuerSlug badgeSlug st :
  let w := world st in
  let listing (l : list BadgeInstance) : Result Response :=
    Ok {| resp_data := PList (map (BadgeInstanceSerializer_data env w request) l);
          resp_status := HTTP_200_OK |} in
  let of_badgeclass := fst (BadgeInstanceList.get env request issuerSlug badgeSlug st) in
  let of_issuer := fst (IssuerBadgeInstanceList.get env request issuerSlug st) in
  let asked a :=
    match query_params request !! "recipient" with
    | Some recipient => bi_recipient_identifier a = recipient
    | None => True
    end in
  (∀ bc, resolves (badgeclasses_of_issuer_slug w issuerSlug) badgeSlug bc →
         permitted (BadgeInstanceList.permission_classes env) w request bc = true →
         ∃ l, of_badgeclass = listing l
              ∧ (∀ a, In a l ↔ In a (db_instances w) ∧ bi_badgeclass_id a = bc_id bc
                                ∧ bi_revoked a = false)
              ∧ ((∀ a, In a (db_instances w) → bi_badgeclass_id a = bc_id bc →
                       bi_revoked a = true) → l = []))
  ∧ (∀ i, resolves (db_issuers w) issuerSlug i →
          permitted (IssuerBadgeInstanceList.permission_classes env) w request i = true →
          ∃ l, of_issuer = listing l
               ∧ (∀ a, In a l ↔ In a (db_instances w) ∧ bi_issuer_id a = issuer_id i
                                 ∧ bi_revoked a = false ∧ asked a)
               ∧ ((∀ a, In a (db_instances w) → bi_issuer_id a = issuer_id i →
                        bi_revoked a = false → ¬ asked a) → l = [])).
Proof.
  intros w listing of_badgeclass of_issuer asked.
  pose proof (BadgeInstanceList_get_run env request issuerSlug badgeSlug st) as Hbc.
  pose proof (IssuerBadgeInstanceList_get_run env request issuerSlug st) as Hi.
  cbv zeta in Hbc, Hi. fold w of_badgeclass in Hbc. fold w of_issuer in Hi.
  assert (∀ a, not_revoked a = true ↔ bi_revoked a = false) as Hnr
    by (intros a; unfold not_revoked; by destruct (bi_revoked a)).
  assert (∀ (l : list BadgeInstance) (P : BadgeInstance → Prop),
            (∀ a, In a l ↔ P a) → (∀ a, ¬ P a) → l = []) as Hempty.
  { intros l P Hl Hnone. destruct l as [|a l]; [done|].
    exfalso. apply (Hnone a). apply Hl. by left. }
  split.
  - intros bc Hr Hp. unfold resolves in Hr. cbn [model_of slug_of BadgeClass_model] in Hr.
    rewrite Hr, Hp in Hbc. eexists. split; [exact Hbc|].
    assert (∀ a, In a (List.filter not_revoked (badgeinstances_of_badgeclass w bc))
                 ↔ In a (db_instances w) ∧ bi_badgeclass_id a = bc_id bc
                   ∧ bi_revoked a = false) as Hmem.
    { intros a. unfold badgeinstances_of_badgeclass.
      rewrite !filter_In, Z.eqb_eq, Hnr. tauto. }
    split; [exact Hmem|]. intros Hnone. eapply Hempty; [exact Hmem|].
    intros a (Hin & Hid & Hrev). specialize (Hnone a Hin Hid). congruence.
  - intros i Hr Hp. unfold resolves in Hr. cbn [model_of slug_of Issuer_model] in Hr.
    rewrite Hr, Hp in Hi. eexists. split; [exact Hi|].
    assert (∀ a, In a (listed_of_issuer w request i)
                 ↔ In a (db_instances w) ∧ bi_issuer_id a = issuer_id i
                   ∧ bi_revoked a = false ∧ asked a) as Hmem.
    { intros a. unfold listed_of_issuer, badgeinstance_set. subst asked. cbv beta.
      destruct (query_params request !! "recipient") as [recipient|].
      - rewrite !filter_In, Z.eqb_eq, andb_true_iff, Hnr. unfold issued_to.
        rewrite String.eqb_eq. tauto.
      - rewrite !filter_In, Z.eqb_eq, Hnr. tauto. }
    split; [exact Hmem|]. intros Hnone. eapply Hempty; [exact Hmem|].
    intros a (Hin & Hid & Hrev & Hasked). by apply (Hnone a).
Qed.

Lemma listings_are_complete_witness :
  resolves (db_issuers Demo.w0) "acme" Demo.acme
  ∧ fst (IssuerBadgeInstanceList.get Demo.env Scenario.alice_asks_nobody "acme" Demo.st0)
    = Ok {| resp_data := PList []; resp_status := HTTP_200_OK |}.
Proof.
  split; [reflexivity|].
  pose proof (listings_are_complete Demo.env Scenario.alice_asks_nobody "acme" "merit"
                Demo.st0) as (_ & Hissuer).
  destruct (Hissuer Demo.acme eq_refl eq_refl) as (l & Hresp & _ & Hnone).
  rewrite Hresp. rewrite Hnone; [reflexivity|].
  intros a [<-|[<-|[]]] _ Hrev; vm_compute; discriminate.
Defined.

(** ** The assertions of a batch *)

Lemma pydict_get_set_eq k v items : pydict_get k (pydict_set k v items) = Some v.
Proof.
  induction items as [|[k' v'] items IH]; cbn.
  - by rewrite String.eqb_refl.
  - destruct (String.eqb k' k) eqn:E; cbn.
    + by rewrite String.eqb_refl.
    + by rewrite E.
Qed.

Lemma pydict_get_set_ne k k' v items :
  k' ≠ k → pydict_get k' (pydict_set k v items) = pydict_get k' items.
Proof.
  intros Hne. induction items as [|[k'' v''] items IH]; cbn.
  - destruct (String.eqb_spec k k'); [congruence|done].
  - destruct (String.eqb_spec k'' k) as [->|Hk]; cbn.
    + destruct (String.eqb_spec k k'); [congruence|].
      by destruct (String.eqb_spec k k').
    + destruct (String.eqb_spec k'' k'); [done|exact IH].
Qed.

Lemma map_result_dicts flag (l : list (list (string * PyValue))) :
  BatchAssertions.map_result (BatchAssertions.include_create_notification flag)
    (map PDict l)
  = Ok (map (λ items, PDict (pydict_set "create_notification" flag items)) l).
Proof.
  induction l as [|items l IH]; [done|].
  cbn [map BatchAssertions.map_result BatchAssertions.include_create_notification].
  unfold mbind, Result_bind. by rewrite IH.
Qed.

Lemma map_result_ok flag l r :
  BatchAssertions.map_result (BatchAssertions.include_create_notification flag) l = Ok r →
  Forall (λ a, ∃ items, a = PDict items) l.
Proof.
  revert r. induction l as [|a l IH]; intros r; [constructor|].
  cbn [BatchAssertions.map_result]. unfold mbind, Result_bind.
  destruct (BatchAssertions.include_create_notification flag a) as [y|e] eqn:Ha; [|done].
  destruct (BatchAssertions.map_result _ l) as [ys|e] eqn:Hl; [|done].
  intros _. constructor; [|by eapply IH].
  destruct a; try discriminate Ha. by eexists.
Qed.

Lemma map_result_raises flag l e :
  BatchAssertions.map_result (BatchAssertions.include_create_notification flag) l = Raise e →
  e = LibraryError "TypeError".
Proof.
  induction l as [|a l IH]; [done|].
  cbn [BatchAssertions.map_result]. unfold mbind, Result_bind.
  destruct (BatchAssertions.include_create_notification flag a) as [y|e'] eqn:Ha.
  - destruct (BatchAssertions.map_result _ l) as [ys|e'']; [done|].
    intros [= <-]. by apply IH.
  - intros [= <-]. destruct a; cbn in Ha; congruence.
Qed.

(** X14.  For a batch whose [assertions] is a list of dicts, the serializer
    is handed as many dicts, in the same order, each with
    [create_notification] set to the batch's own flag ([False] when the
    batch gives none), overriding any value the item carried, and with
    every other key as the item had it. *)
Theorem batch_stamps_create_notification request (l : list (list (string * PyValue))) :
  dict_get (data request) "assertions" = PList (map PDict l) →
  let flag := default (PBool false) (data request !! "create_notification") in
  ∃ stamped,
    BatchAssertions.assertions_of request = Ok (map PDict stamped)
    ∧ length stamped = length l
    ∧ Forall2 (λ item sent,
                 pydict_get "create_notification" sent = Some flag
                 ∧ ∀ k, k ≠ "create_notification" → pydict_get k sent = pydict_get k item)
              l stamped.
Proof.
  intros Hlist flag.
  exists (map (pydict_set "create_notification" flag) l).
  split; [|split].
  - unfold BatchAssertions.assertions_of. fold flag. rewrite Hlist.
    rewrite map_result_dicts. by rewrite map_map.
  - by rewrite length_map.
  - clear Hlist. induction l as [|item l IH]; cbn [map]; constructor; [|exact IH].
    split; [apply pydict_get_set_eq|]. intros k Hk. by apply pydict_get_set_ne.
Qed.

Lemma batch_stamps_create_notification_witness :
  BatchAssertions.assertions_of Scenario.alice_batch
  = Ok [PDict [("recipient_identifier", PStr "bob@example.org");
               ("create_notification", PBool true)];
        PDict [("recipient_identifier", PStr "eve@example.org");
               ("create_notification", PBool true)]].
Proof.
  destruct (batch_stamps_create_notification Scenario.alice_batch
              [[("recipient_identifier", PStr "bob@example.org")];
               [("recipient_identifier", PStr "eve@example.org");
                ("create_notification", PBool false)]] eq_refl)
    as (stamped & Hsent & _).
  reflexivity.
Defined.

(** X15.  The batch is prepared only from a list of dicts: with
    [assertions] missing or null the [map] raises a TypeError, and for a
    list it yields a result exactly when every item is a dict, raising the
    TypeError of the item assignment otherwise; the empty list gives the
    empty batch. *)
Theorem batch_needs_a_list_of_dicts request :
  (dict_get (data request) "assertions" = PNone →
   BatchAssertions.assertions_of request = Raise (LibraryError "TypeError"))
  ∧ (∀ l, dict_get (data request) "assertions" = PList l →
          ((∃ sent, BatchAssertions.assertions_of request = Ok sent)
           ↔ Forall (λ a, ∃ items, a = PDict items) l)
          ∧ (¬ Forall (λ a, ∃ items, a = PDict items) l →
             BatchAssertions.assertions_of request = Raise (LibraryError "TypeError"))
          ∧ (l = [] → BatchAssertions.assertions_of request = Ok [])).
Proof.
  split.
  - intros Hnone. unfold BatchAssertions.assertions_of. by rewrite Hnone.
  - intros l Hlist. unfold BatchAssertions.assertions_of. rewrite Hlist.
    set (flag := default (PBool false) (data request !! "create_notification")).
    assert ((∃ sent, BatchAssertions.map_result
                       (BatchAssertions.include_create_notification flag) l = Ok sent)
            ↔ Forall (λ a, ∃ items, a = PDict items) l) as Hiff.
    { split.
      - intros [sent Hsent]. by eapply map_result_ok.
      - intros Hall.
        assert (∃ dicts, l = map PDict dicts) as [dicts ->].
        { clear -Hall. induction Hall as [|a l [items ->] _ [dicts ->]].
          - by exists [].
          - by exists (items :: dicts). }
        rewrite map_result_dicts. by eexists. }
    split; [exact Hiff|]. split.
    + intros Hnot.
      destruct (BatchAssertions.map_result _ l) as [sent|e] eqn:Hres.
      * exfalso. apply Hnot, Hiff. by exists sent.
      * f_equal. by eapply map_result_raises.
    + by intros ->.
Qed.

Lemma batch_needs_a_list_of_dicts_witness :
  BatchAssertions.assertions_of Demo.alice_plain = Raise (LibraryError "TypeError")
  ∧ BatchAssertions.assertions_of Scenario.alice_batch_of_strings
    = Raise (LibraryError "TypeError").
Proof.
  split.
  - exact (proj1 (batch_needs_a_list_of_dicts Demo.alice_plain) eq_refl).
  - destruct (proj2 (batch_needs_a_list_of_dicts Scenario.alice_batch_of_strings)
                [PStr "bob@example.org"] eq_refl) as (_ & Hraise & _).
    apply Hraise. intros Hall. inversion Hall as [|? ? [items Hitems] _]; subst.
    discriminate Hitems.
Defined.
